(** * misconfig-ConfigCommentAnalyzer: a shallow embedding of [src/main.py]

    The program reads one configuration file and reports findings as a list
    of message strings.  This development embeds

    - the three regular expressions handed to [re.search] (a small regular
      expression type with a derivative matcher, and the declarative language
      it decides),
    - the per-line scanners [analyze_comments] and [find_secrets],
    - the dispatcher [analyze_file_content] with its [try]/[except] blocks,
    - the driver [main],

    and proves the properties of the specification against them.

    Text.  A decoded character is a code point; the embedding covers the code
    points U+0000..U+00FF, held in [ascii].  On that range [str.lower],
    [str.strip], [\s] and [re.IGNORECASE] are the functions written below.

    Environment.  Everything the program obtains from outside (the file
    system, the YAML and JSON parsers, the external lint tools) is a field of
    [World]; a run sees one [World], so a file read twice has the same
    content both times. *)

From Stdlib Require Import Bool Arith NArith ZArith Lia List.
From Stdlib Require Import Ascii String DecimalString DecimalNat.
Import ListNotations.

Local Open Scope bool_scope.
Local Open Scope list_scope.
Local Open Scope string_scope.

(* ================================================================= *)
(** ** Characters and strings *)

Definition code (c : ascii) : N := N_of_ascii c.

(** [str.isspace] / [\s] on U+0000..U+00FF: TAB..CR, FS..US, space, NEL and
    the no-break space. *)
Definition is_space (c : ascii) : bool :=
  let n := code c in
  ((9 <=? n) && (n <=? 13) || (28 <=? n) && (n <=? 32)
   || (n =? 133) || (n =? 160))%N.

(** [str.lower] on one code point of U+0000..U+00FF. *)
Definition lower_char (c : ascii) : ascii :=
  let n := code c in
  if ((65 <=? n) && (n <=? 90)
      || (192 <=? n) && (n <=? 222) && negb (n =? 215))%N
  then ascii_of_N (n + 32) else c.

Fixpoint lower (s : string) : string :=
  match s with
  | EmptyString => EmptyString
  | String c s' => String (lower_char c) (lower s')
  end.

(** [s.endswith(suffix)] *)
Fixpoint endswith (s suffix : string) : bool :=
  (s =? suffix) ||
  match s with
  | EmptyString => false
  | String _ s' => endswith s' suffix
  end.

Fixpoint lstrip (s : string) : string :=
  match s with
  | EmptyString => EmptyString
  | String c s' => if is_space c then lstrip s' else s
  end.

Fixpoint rstrip (s : string) : string :=
  match s with
  | EmptyString => EmptyString
  | String c s' =>
      match rstrip s' with
      | EmptyString => if is_space c then EmptyString else String c EmptyString
      | r => String c r
      end
  end.

(** [s.strip()] *)
Definition strip (s : string) : string := rstrip (lstrip s).

(** [str(n)] for a non-negative integer. *)
Definition string_of_nat (n : nat) : string :=
  NilEmpty.string_of_uint (Nat.to_uint n).

(** Iterating over a text file yields its lines, each with its newline. *)
Fixpoint split_lines (s : string) : list string :=
  match s with
  | EmptyString => []
  | String c s' =>
      if Ascii.eqb c "010" then String c EmptyString :: split_lines s'
      else match split_lines s' with
           | [] => [String c EmptyString]
           | l :: ls => String c l :: ls
           end
  end.

(* ================================================================= *)
(** ** Regular expressions and [re.search] *)

Inductive regex : Type :=
| Void
| Eps
| Cls (p : ascii -> bool)
| Cat (r1 r2 : regex)
| Alt (r1 r2 : regex)
| Star (r : regex).

(** The language of a regular expression. *)
Inductive lang : regex -> string -> Prop :=
| lang_eps : lang Eps EmptyString
| lang_cls p c : p c = true -> lang (Cls p) (String c EmptyString)
| lang_cat r1 r2 s1 s2 :
    lang r1 s1 -> lang r2 s2 -> lang (Cat r1 r2) (s1 ++ s2)
| lang_alt_l r1 r2 s : lang r1 s -> lang (Alt r1 r2) s
| lang_alt_r r1 r2 s : lang r2 s -> lang (Alt r1 r2) s
| lang_star_nil r : lang (Star r) EmptyString
| lang_star_app r s1 s2 :
    lang r s1 -> lang (Star r) s2 -> lang (Star r) (s1 ++ s2).

Fixpoint nullable (r : regex) : bool :=
  match r with
  | Void => false
  | Eps => true
  | Cls _ => false
  | Cat r1 r2 => nullable r1 && nullable r2
  | Alt r1 r2 => nullable r1 || nullable r2
  | Star _ => true
  end.

Fixpoint deriv (c : ascii) (r : regex) : regex :=
  match r with
  | Void => Void
  | Eps => Void
  | Cls p => if p c then Eps else Void
  | Cat r1 r2 =>
      Alt (Cat (deriv c r1) r2) (if nullable r1 then deriv c r2 else Void)
  | Alt r1 r2 => Alt (deriv c r1) (deriv c r2)
  | Star r1 => Cat (deriv c r1) (Star r1)
  end.

(** Some prefix of [s] is in the language of [r] ([re.match]). *)
Fixpoint match_here (r : regex) (s : string) : bool :=
  nullable r ||
  match s with
  | EmptyString => false
  | String c s' => match_here (deriv c r) s'
  end.

(** Some substring of [s] is in the language of [r]: the truth value of
    [re.search(r, s)]. *)
Fixpoint re_search (r : regex) (s : string) : bool :=
  match_here r s ||
  match s with
  | EmptyString => false
  | String _ s' => re_search r s'
  end.

(** A literal character; under [re.IGNORECASE] it matches every character
    with the same lower case. *)
Definition chr (ignorecase : bool) (c : ascii) : regex :=
  if ignorecase
  then Cls (fun x => Ascii.eqb (lower_char x) (lower_char c))
  else Cls (Ascii.eqb c).

Fixpoint lit (ignorecase : bool) (s : string) : regex :=
  match s with
  | EmptyString => Eps
  | String c s' => Cat (chr ignorecase c) (lit ignorecase s')
  end.

(** [r?] *)
Definition opt (r : regex) : regex := Alt Eps r.

(** [r{n,}] *)
Fixpoint at_least (n : nat) (r : regex) : regex :=
  match n with
  | O => Star r
  | S k => Cat r (at_least k r)
  end.

(** The comment introducers: [#], two slashes, or a slash and a star. *)
Definition comment_token (ic : bool) : regex :=
  Alt (lit ic "#") (Alt (lit ic "//") (lit ic "/*")).

(** [\s*] *)
Definition spaces : regex := Star (Cls is_space).

(** Line 44: a comment introducer, [\s*], then [(TODO|FIXME|XXX)]; no flags. *)
Definition marker_re : regex :=
  Cat (comment_token false)
      (Cat spaces
           (Alt (lit false "TODO") (Alt (lit false "FIXME") (lit false "XXX")))).

(** Line 48: a comment introducer, [\s*], then [(deprecated|obsolete|old)];
    compiled with [re.IGNORECASE]. *)
Definition stale_re : regex :=
  Cat (comment_token true)
      (Cat spaces
           (Alt (lit true "deprecated")
                (Alt (lit true "obsolete") (lit true "old")))).

(** [[:=]] *)
Definition is_sep (c : ascii) : bool := Ascii.eqb c ":" || Ascii.eqb c "=".

(** The class of the two quote characters, double and single. *)
Definition is_quote (c : ascii) : bool :=
  Ascii.eqb c "034" || Ascii.eqb c "039".

(** [[a-zA-Z0-9_-]]; [re.IGNORECASE] adds no character of U+0000..U+00FF. *)
Definition is_token_char (c : ascii) : bool :=
  let n := code c in
  ((97 <=? n) && (n <=? 122) || (65 <=? n) && (n <=? 90)
   || (48 <=? n) && (n <=? 57) || (n =? 95) || (n =? 45))%N.

(** [(api_key|apikey|password|secret)] with [re.IGNORECASE]. *)
Definition secret_key : regex :=
  Alt (lit true "api_key")
      (Alt (lit true "apikey") (Alt (lit true "password") (lit true "secret"))).

(** Line 155: the key alternatives, [\s*], one of [:=], [\s*], an optional
    quote, twenty or more token characters, an optional quote; compiled with
    [re.IGNORECASE]. *)
Definition secret_re : regex :=
  Cat secret_key
      (Cat spaces
           (Cat (Cls is_sep)
                (Cat spaces
                     (Cat (opt (Cls is_quote))
                          (Cat (at_least 20 (Cls is_token_char))
                               (opt (Cls is_quote))))))).

(* ================================================================= *)
(** ** Parsed documents, exceptions and the environment *)

(** What [yaml.safe_load] and [json.loads] return: a tree of mappings,
    sequences and scalars.  A mapping is kept as its items; a Python [dict]
    holds a key once. *)
#[warnings="-register-all"]
Inductive value : Type :=
| VNone
| VBool (b : bool)
| VInt (n : Z)
| VFloat (bits : Z)
| VStr (s : string)
| VList (items : list value)
| VDict (items : list (value * value)).

(** [isinstance(data, dict)] *)
Definition is_dict (data : value) : bool :=
  match data with
  | VDict _ => true
  | _ => false
  end.

(** A key equal to the [str] [k]: only a [str] compares equal to a [str]. *)
Definition key_is (k : string) (key : value) : bool :=
  match key with
  | VStr s => s =? k
  | _ => false
  end.

(** [data[k]] for a [str] key [k], [None] where Python raises [KeyError]. *)
Fixpoint dict_get (k : string) (items : list (value * value)) : option value :=
  match items with
  | [] => None
  | (key, v) :: rest => if key_is k key then Some v else dict_get k rest
  end.

(** [k in data] *)
Definition dict_has (k : string) (items : list (value * value)) : bool :=
  match dict_get k items with
  | Some _ => true
  | None => false
  end.

(** [v == s] for a [str] [s]. *)
Definition eq_str (v : value) (s : string) : bool :=
  match v with
  | VStr t => t =? s
  | _ => false
  end.

(** [v is True] *)
Definition is_True (v : value) : bool :=
  match v with
  | VBool true => true
  | _ => false
  end.

(** The exceptions the handlers of the program tell apart; all of them are
    subclasses of [Exception].  A [YAMLError] and a [JSONDecodeError] carry
    their [str()]. *)
Inductive exn : Type :=
| FileNotFoundError
| YAMLError (msg : string)
| JSONDecodeError (msg : string)
| OtherException.

(** The outcome of a call that may raise. *)
Inductive res (A : Type) : Type :=
| Ok (a : A)
| Raise (e : exn).
Arguments Ok {A} a.
Arguments Raise {A} e.

Definition bind {A B : Type} (m : res A) (f : A -> res B) : res B :=
  match m with
  | Ok a => f a
  | Raise e => Raise e
  end.

Notation "x <- m ;; k" := (bind m (fun x => k))
  (at level 61, m at next level, right associativity).

(** [try: m  except <the exceptions h answers>: ...] *)
Definition try_except {A : Type} (m : res A) (h : exn -> option (res A))
  : res A :=
  match m with
  | Ok a => Ok a
  | Raise e =>
      match h e with
      | Some r => r
      | None => Raise e
      end
  end.

(** The result of [subprocess.run(..., capture_output=True, text=True)]. *)
Record CompletedProcess : Type := {
  returncode : Z;
  stdout : string;
  stderr : string
}.

Record World : Type := {
  (** [os.path.exists(path)] *)
  path_exists : string -> bool;
  (** [open(path, 'r', encoding='utf-8')] and reading it to the end: the
      decoded text, its line ends already translated to the newline
      character, or the exception raised on the way *)
  read_text : string -> res string;
  yaml_safe_load : string -> res value;
  json_loads : string -> res value;
  (** [subprocess.run(argv, ...)]; [FileNotFoundError] when the executable
      is absent *)
  subprocess_run : list string -> res CompletedProcess
}.

(* ================================================================= *)
(** ** The messages *)

Definition marker_msg (lineno : nat) (line : string) : string :=
  "Warning: Potential TODO/FIXME/XXX found on line "
    ++ string_of_nat lineno ++ ": " ++ strip line.

Definition stale_msg (lineno : nat) (line : string) : string :=
  "Warning: Potential outdated comment found on line "
    ++ string_of_nat lineno ++ ": " ++ strip line.

Definition secret_msg (lineno : nat) (line : string) : string :=
  "Potential secret found on line "
    ++ string_of_nat lineno ++ ": " ++ strip line.

Definition newline : string := String "010" EmptyString.

Definition yaml_rule_msg : string :=
  "Warning: api_version is v1, consider upgrading to a newer version.".

Definition json_rule_msg : string :=
  "Warning: Debug mode is enabled. Disable in production.".

Definition not_found_msg : string := "Error: File not found.".
Definition read_failed_msg : string := "Error: Failed to read file.".
Definition invalid_type_msg : string := "Error: Invalid filetype specified.".

(** The handlers every function of the program ends with:
    [except FileNotFoundError] and [except Exception]. *)
Definition file_handlers (e : exn) : option (res (list string)) :=
  match e with
  | FileNotFoundError => Some (Ok [not_found_msg])
  | _ => Some (Ok [read_failed_msg])
  end.

(* ================================================================= *)
(** ** [analyze_comments] *)

(** The body of the loop of [analyze_comments] for the line at index [i]:
    what it appends to [warnings]. *)
Definition comment_line (i : nat) (line : string) : list string :=
  ((if re_search marker_re line then [marker_msg (i + 1) line] else [])
   ++ (if re_search stale_re line then [stale_msg (i + 1) line] else []))%list.

(** [for i, line in enumerate(f)], started at index [i]. *)
Fixpoint comment_lines (i : nat) (lines : list string) : list string :=
  match lines with
  | [] => []
  | line :: rest => (comment_line i line ++ comment_lines (S i) rest)%list
  end.

Definition analyze_comments (w : World) (filepath : string)
  : res (list string) :=
  try_except
    (text <- read_text w filepath ;;
     Ok (comment_lines 0 (split_lines text)))
    file_handlers.

(* ================================================================= *)
(** ** [find_secrets] *)

Definition secret_line (i : nat) (line : string) : list string :=
  if re_search secret_re line then [secret_msg (i + 1) line] else [].

Fixpoint secret_lines (i : nat) (lines : list string) : list string :=
  match lines with
  | [] => []
  | line :: rest => (secret_line i line ++ secret_lines (S i) rest)%list
  end.

Definition find_secrets (w : World) (filepath : string) : res (list string) :=
  try_except
    (text <- read_text w filepath ;;
     Ok (secret_lines 0 (split_lines text)))
    file_handlers.

(* ================================================================= *)
(** ** [analyze_file_content] *)

(** Lines 94-101: the [yamllint] run and what it appends. *)
Definition yamllint_check (w : World) (filepath : string)
  : res (list string) :=
  try_except
    (result <- subprocess_run w ["yamllint"; filepath] ;;
     Ok (if negb (returncode result =? 0)%Z
         then ["yamllint found issues:" ++ newline ++ stdout result]
         else if negb (stdout result =? EmptyString)
              then ["yamllint reported:" ++ newline ++ stdout result]
              else []))
    (fun e => match e with FileNotFoundError => Some (Ok []) | _ => None end).

(** Lines 114-123: the [jsonlint] run; its errors are read from [stderr]. *)
Definition jsonlint_check (w : World) (filepath : string)
  : res (list string) :=
  try_except
    (result <- subprocess_run w ["jsonlint"; filepath] ;;
     Ok (if negb (returncode result =? 0)%Z
         then ["jsonlint found issues:" ++ newline ++ stderr result]
         else if negb (stdout result =? EmptyString)
              then ["jsonlint reported:" ++ newline ++ stdout result]
              else []))
    (fun e => match e with FileNotFoundError => Some (Ok []) | _ => None end).

(** Lines 104-106. *)
Definition yaml_rules (data : value) : list string :=
  match data with
  | VDict items =>
      if dict_has "api_version" items then
        match dict_get "api_version" items with
        | Some v => if eq_str v "v1" then [yaml_rule_msg] else []
        | None => []
        end
      else []
  | _ => []
  end.

(** Lines 126-127. *)
Definition json_rules (data : value) : list string :=
  match data with
  | VDict items =>
      if dict_has "debug" items then
        match dict_get "debug" items with
        | Some v => if is_True v then [json_rule_msg] else []
        | None => []
        end
      else []
  | _ => []
  end.

(** Lines 90-108.  Nothing is appended to [warnings] before the last call
    that can raise has returned, so the block is its list of warnings or an
    exception. *)
Definition analyze_yaml (w : World) (filepath content : string)
  : res (list string) :=
  try_except
    (data <- yaml_safe_load w content ;;
     lint <- yamllint_check w filepath ;;
     Ok (lint ++ yaml_rules data)%list)
    (fun e => match e with
              | YAMLError msg => Some (Ok ["Error parsing YAML: " ++ msg])
              | _ => None
              end).

(** Lines 110-130. *)
Definition analyze_json (w : World) (filepath content : string)
  : res (list string) :=
  try_except
    (data <- json_loads w content ;;
     lint <- jsonlint_check w filepath ;;
     Ok (lint ++ json_rules data)%list)
    (fun e => match e with
              | JSONDecodeError msg => Some (Ok ["Error parsing JSON: " ++ msg])
              | _ => None
              end).

(** Lines 80-88: [Some t] when the run goes on with file type [t], [None]
    when it returns the comment analysis. *)
Definition resolve_filetype (filepath filetype : string) : option string :=
  if filetype =? "auto" then
    if endswith (lower filepath) ".yaml" || endswith (lower filepath) ".yml"
    then Some "yaml"
    else if endswith (lower filepath) ".json" then Some "json"
    else None
  else Some filetype.

Definition analyze_file_content (w : World) (filepath filetype : string)
  : res (list string) :=
  try_except
    (content <- read_text w filepath ;;
     match resolve_filetype filepath filetype with
     | None => analyze_comments w filepath
     | Some t =>
         if t =? "yaml" then analyze_yaml w filepath content
         else if t =? "json" then analyze_json w filepath content
         else Ok [invalid_type_msg]
     end)
    file_handlers.

(* ================================================================= *)
(** ** [main] *)

(** The parsed command line. *)
Record Args : Type := {
  filepath : string;
  filetype : string;
  find_secrets_flag : bool
}.

(** What a run leaves behind: the lines given to [print] and the exit
    status. *)
Record Outcome : Type := {
  printed : list string;
  exit_status : Z
}.

(** Lines 184-189: [analysis_results] as [main] prints it. *)
Definition analysis_results (w : World) (args : Args) : res (list string) :=
  results <- analyze_file_content w (filepath args) (filetype args) ;;
  if find_secrets_flag args then
    secrets <- find_secrets w (filepath args) ;;
    Ok (results ++ secrets)%list
  else Ok results.

(** An exception that leaves [main] ends the process with status 1. *)
Definition main (w : World) (args : Args) : Outcome :=
  if negb (path_exists w (filepath args)) then
    {| printed := ["Error: File not found: " ++ filepath args];
       exit_status := 1 |}
  else
    match analysis_results w args with
    | Ok [] => {| printed := ["No issues found."]; exit_status := 0 |}
    | Ok results =>
        {| printed := "Analysis Results:" :: results; exit_status := 0 |}
    | Raise _ => {| printed := []; exit_status := 1 |}
    end.

(* ================================================================= *)
(** ** The line shapes the three patterns describe *)

Fixpoint all_chars (p : ascii -> bool) (s : string) : bool :=
  match s with
  | EmptyString => true
  | String c s' => p c && all_chars p s'
  end.

Definition is_comment_token (t : string) : Prop :=
  t = "#" \/ t = "//" \/ t = "/*".

Definition is_marker_word (t : string) : Prop :=
  t = "TODO" \/ t = "FIXME" \/ t = "XXX".

(** [deprecated], [obsolete] or [old] in any letter case. *)
Definition is_stale_word (t : string) : Prop :=
  lower t = "deprecated" \/ lower t = "obsolete" \/ lower t = "old".

(** [api_key], [apikey], [password] or [secret] in any letter case. *)
Definition is_secret_key (t : string) : Prop :=
  lower t = "api_key" \/ lower t = "apikey" \/ lower t = "password"
  \/ lower t = "secret".

(** Nothing, or one quote character. *)
Definition is_opt_quote (t : string) : Prop :=
  t = EmptyString \/ exists c, t = String c EmptyString /\ is_quote c = true.

(** Somewhere on the line: a comment introducer, then only whitespace (or
    nothing), then a marker word. *)
Definition has_marker_comment (line : string) : Prop :=
  exists pre tok sp word post,
    line = pre ++ tok ++ sp ++ word ++ post
    /\ is_comment_token tok /\ all_chars is_space sp = true
    /\ is_marker_word word.

(** Somewhere on the line: a comment introducer, then only whitespace (or
    nothing), then a staleness word; anything may follow the word. *)
Definition has_stale_comment (line : string) : Prop :=
  exists pre tok sp word post,
    line = pre ++ tok ++ sp ++ word ++ post
    /\ is_comment_token tok /\ all_chars is_space sp = true
    /\ is_stale_word word.

(** Somewhere on the line: a key fragment, whitespace, one separator,
    whitespace, an optional quote and at least twenty token characters. *)
Definition has_secret_assignment (line : string) : Prop :=
  exists pre key sp1 sep sp2 q tok post,
    line = pre ++ key ++ sp1 ++ String sep (sp2 ++ q ++ tok ++ post)
    /\ is_secret_key key /\ all_chars is_space sp1 = true
    /\ is_sep sep = true /\ all_chars is_space sp2 = true
    /\ is_opt_quote q
    /\ all_chars is_token_char tok = true /\ 20 <= String.length tok.

(* ================================================================= *)
(** ** Which component a message comes from

    The program returns plain strings; every producer writes a fixed head,
    and the component is read off it. *)

Definition is_comment_scan (m : string) : bool :=
  prefix "Warning: Potential " m.

Definition is_linter (m : string) : bool :=
  prefix "yamllint " m || prefix "jsonlint " m.

Definition is_rule_engine (m : string) : bool :=
  (m =? yaml_rule_msg) || (m =? json_rule_msg).

Definition is_parse_error (m : string) : bool :=
  prefix "Error parsing " m.

(** A parse error or one of the three [Error: ...] results. *)
Definition is_error (m : string) : bool := prefix "Error" m.

Definition is_secret_scan (m : string) : bool :=
  prefix "Potential secret found" m.

(** A rule-engine finding, or what stands in its place: a parse error or an
    [Error: ...] result. *)
Definition is_rule_or_error (m : string) : bool :=
  is_rule_engine m || is_error m.

(** The first character of a message. *)
Definition head (m : string) : option ascii :=
  match m with
  | EmptyString => None
  | String c _ => Some c
  end.

(* ================================================================= *)
(** ** Worlds and inputs used in the examples *)

(** A world with one file at [path]; the parsers and the tool runner answer
    the same whatever they are given. *)
Definition one_file_world (path text : string) (yaml json : res value)
  (tool : res CompletedProcess) : World :=
  {| path_exists := fun p => p =? path;
     read_text := fun p => if p =? path then Ok text
                           else Raise FileNotFoundError;
     yaml_safe_load := fun _ => yaml;
     json_loads := fun _ => json;
     subprocess_run := fun _ => tool |}.

(** A line that matches both patterns of [analyze_comments]. *)
Definition both_line : string := "port: 80 # TODO // old value" ++ newline.

(** A marker comment that mentions [deprecated] further on. *)
Definition todo_deprecated_line : string :=
  "# TODO: remove deprecated flag" ++ newline.

(** The staleness word is only the head of a longer word. *)
Definition older_line : string := "# older settings".

(** A plain text file whose second line is [both_line]. *)
Definition c2_first_line : string := "name: demo" ++ newline.

Definition c2_text : string := c2_first_line ++ both_line.

Definition c2_world : World :=
  one_file_world "notes.conf" c2_text
    (Raise OtherException) (Raise OtherException) (Raise FileNotFoundError).

(** A YAML file with a marker comment; no lint tool is installed. *)
Definition c1_line : string := "# TODO fix the port" ++ newline.

Definition c1_text : string := c1_line ++ "name: demo" ++ newline.

Definition c1_world : World :=
  one_file_world "config.yaml" c1_text
    (Ok (VDict [(VStr "name", VStr "demo")]))
    (Raise (JSONDecodeError "Expecting value"))
    (Raise FileNotFoundError).

(** A malformed YAML file with a marker comment. *)
Definition c4_line : string := "# TODO close the list" ++ newline.

Definition c4_text : string := c4_line ++ "items: [a, b" ++ newline.

Definition c4_world : World :=
  one_file_world "broken.yaml" c4_text
    (Raise (YAMLError "while parsing a flow sequence"))
    (Raise (JSONDecodeError "Expecting value"))
    (Raise FileNotFoundError).

(** A YAML file with [api_version: v1] on which [yamllint] complains. *)
Definition c5_text : string := "api_version: v1" ++ newline.

Definition c5_lint : CompletedProcess :=
  {| returncode := 1;
     stdout := "app.yaml 1:1 warning missing document start";
     stderr := EmptyString |}.

Definition c5_world : World :=
  one_file_world "app.yaml" c5_text
    (Ok (VDict [(VStr "api_version", VStr "v1")]))
    (Raise (JSONDecodeError "Expecting value"))
    (Ok c5_lint).

Definition c5_args : Args :=
  {| filepath := "app.yaml"; filetype := "auto"; find_secrets_flag := false |}.

(** The double quote character as a string. *)
Definition dquote : string := String "034" EmptyString.

(** A JSON file holding the object with [debug] set to [true]; no lint
    tool is installed. *)
Definition c3_text : string := "{" ++ dquote ++ "debug" ++ dquote ++ ": true}".

Definition c3_world : World :=
  one_file_world "app.json" c3_text
    (Raise (YAMLError "unused"))
    (Ok (VDict [(VStr "debug", VBool true)]))
    (Raise FileNotFoundError).

(** The line of the specification: [password = ] and a quoted token of 26
    letters. *)
Definition password_line : string :=
  "password = " ++ dquote ++ "abcdefghijklmnopqrstuvwxyz" ++ dquote ++ newline.

(** A key fragment and a long token with no separator between them. *)
Definition no_separator_line : string :=
  "password abcdefghijklmnopqrstuvwxyz" ++ newline.

(** The pattern as the specification words it, the separator being
    optional: the pattern of line 155 with [[:=]?] for [[:=]]. *)
Definition secret_re_as_specified : regex :=
  Cat secret_key
      (Cat spaces
           (Cat (opt (Cls is_sep))
                (Cat spaces
                     (Cat (opt (Cls is_quote))
                          (Cat (at_least 20 (Cls is_token_char))
                               (opt (Cls is_quote))))))).

Definition c7_world : World :=
  one_file_world "settings.conf" password_line
    (Raise (YAMLError "unused")) (Raise (JSONDecodeError "unused"))
    (Raise FileNotFoundError).

Definition c7_args (flag : bool) : Args :=
  {| filepath := "settings.conf"; filetype := "auto";
     find_secrets_flag := flag |}.

Definition c7_world_no_separator : World :=
  one_file_world "settings.conf" no_separator_line
    (Raise (YAMLError "unused")) (Raise (JSONDecodeError "unused"))
    (Raise FileNotFoundError).


(* ================================================================= *)
(** ** Further notions used by the properties of the whole program *)

(** The character [c] occurs in [s]. *)
Fixpoint has_char (c : ascii) (s : string) : bool :=
  match s with
  | EmptyString => false
  | String d s' => Ascii.eqb c d || has_char c s'
  end.

(** Every character class of [r] gives the same answer on a character and
    on its lower case. *)
Fixpoint case_blind (r : regex) : Prop :=
  match r with
  | Void => True
  | Eps => True
  | Cls p => forall c, p (lower_char c) = p c
  | Cat r1 r2 => case_blind r1 /\ case_blind r2
  | Alt r1 r2 => case_blind r1 /\ case_blind r2
  | Star r1 => case_blind r1
  end.

(** [n] opening brackets. *)
Fixpoint brackets (n : nat) : string :=
  match n with
  | O => EmptyString
  | S k => String "[" (brackets k)
  end.

(** A JSON document nested too deeply for the parser: [json.loads] gives up
    with [RecursionError], which is no [JSONDecodeError]. *)
Definition deep_json_text : string := brackets (100 * 1000).

Definition deep_json_world : World :=
  one_file_world "deep.json" deep_json_text
    (Raise (YAMLError "unused")) (Raise OtherException)
    (Raise FileNotFoundError).


(** Line 21: the values [argparse] lets through for the file type. *)
Definition filetype_choices : list string := ["yaml"; "json"; "auto"].

(** What the handlers of lines 52-57, 134-139 and 157-162 return for an
    exception. *)
Definition read_error_msg (e : exn) : string :=
  match e with
  | FileNotFoundError => not_found_msg
  | _ => read_failed_msg
  end.

(** A world whose only file exists and cannot be read. *)
Definition unreadable_world : World :=
  {| path_exists := fun _ => true;
     read_text := fun _ => Raise OtherException;
     yaml_safe_load := fun _ => Raise (YAMLError "unused");
     json_loads := fun _ => Raise (JSONDecodeError "unused");
     subprocess_run := fun _ => Raise FileNotFoundError |}.

Definition unreadable_args : Args :=
  {| filepath := "locked.yaml"; filetype := "auto";
     find_secrets_flag := true |}.

(** [app.yaml] with [api_version: v1], the lint tool failing to start for a
    reason other than its absence. *)
Definition tool_crash_world : World :=
  one_file_world "app.yaml" c5_text
    (Ok (VDict [(VStr "api_version", VStr "v1")]))
    (Raise (JSONDecodeError "Expecting value"))
    (Raise OtherException).

(** The same file with no lint tool installed. *)
Definition no_tool_world : World :=
  one_file_world "app.yaml" c5_text
    (Ok (VDict [(VStr "api_version", VStr "v1")]))
    (Raise (JSONDecodeError "Expecting value"))
    (Raise FileNotFoundError).

(** A marker word in lower case. *)
Definition lower_todo_line : string := "# todo later" ++ newline.

(** The head of the marker warning of line 45. *)
Definition is_marker_warning (m : string) : bool :=
  prefix "Warning: Potential TODO" m.

(** A plain text file holding [lower_todo_line] alone. *)
Definition lower_todo_world : World :=
  one_file_world "notes.conf" lower_todo_line
    (Raise OtherException) (Raise OtherException) (Raise FileNotFoundError).

(* ================================================================= *)
(** * Strings *)

Lemma append_empty_r (s : string) : s ++ EmptyString = s.
Proof. induction s; simpl; congruence. Qed.

Lemma append_assoc' (a b c : string) : (a ++ b) ++ c = a ++ b ++ c.
Proof. induction a; simpl; congruence. Qed.

Lemma append_eq_empty (a b : string) :
  a ++ b = EmptyString -> a = EmptyString /\ b = EmptyString.
Proof. destruct a; simpl; intros H; [auto | discriminate]. Qed.

Lemma length_append (a b : string) :
  String.length (a ++ b) = String.length a + String.length b.
Proof. induction a; simpl; auto. Qed.

Lemma lower_append (a b : string) : lower (a ++ b) = lower a ++ lower b.
Proof. induction a; simpl; congruence. Qed.

Lemma lower_char_idem (c : ascii) : lower_char (lower_char c) = lower_char c.
Proof.
  destruct c as [[] [] [] [] [] [] [] []]; vm_compute; reflexivity.
Qed.

Lemma lower_idem (s : string) : lower (lower s) = lower s.
Proof. induction s; simpl; [|rewrite lower_char_idem]; congruence. Qed.

Lemma endswith_spec (s suffix : string) :
  endswith s suffix = true <-> exists p, s = p ++ suffix.
Proof.
  induction s as [|c s IH]; cbn [endswith].
  - rewrite orb_false_r, String.eqb_eq. split.
    + intros E. exists EmptyString. auto.
    + intros [p E]. symmetry in E. apply append_eq_empty in E. symmetry.
      tauto.
  - rewrite orb_true_iff, String.eqb_eq, IH. split.
    + intros [E | [p E]].
      * exists EmptyString. auto.
      * exists (String c p). simpl. congruence.
    + intros [[|d p] E]; simpl in E.
      * left. auto.
      * right. exists p. congruence.
Qed.

Lemma all_chars_append (p : ascii -> bool) (a b : string) :
  all_chars p (a ++ b) = all_chars p a && all_chars p b.
Proof. induction a; simpl; [|rewrite IHa, andb_assoc]; auto. Qed.

(* ================================================================= *)
(** * The matcher decides the language *)

Lemma lang_cat_inv r1 r2 s :
  lang (Cat r1 r2) s -> exists s1 s2, s = s1 ++ s2 /\ lang r1 s1 /\ lang r2 s2.
Proof. intros H. inversion H; subst. eauto. Qed.

Lemma lang_alt_inv r1 r2 s : lang (Alt r1 r2) s -> lang r1 s \/ lang r2 s.
Proof. intros H. inversion H; subst; auto. Qed.

Lemma lang_cls_inv p s :
  lang (Cls p) s -> exists c, s = String c EmptyString /\ p c = true.
Proof. intros H. inversion H; subst. eauto. Qed.

Lemma lang_eps_inv s : lang Eps s -> s = EmptyString.
Proof. intros H. inversion H; auto. Qed.

Lemma lang_void_inv s : lang Void s -> False.
Proof. intros H. inversion H. Qed.

Lemma nullable_lang (r : regex) : nullable r = true <-> lang r EmptyString.
Proof.
  split.
  - induction r; simpl; intros H; try discriminate.
    + constructor.
    + apply andb_true_iff in H as [H1 H2].
      change EmptyString with (EmptyString ++ EmptyString).
      constructor; auto.
    + apply orb_true_iff in H as [H | H]; [apply lang_alt_l | apply lang_alt_r];
        auto.
    + constructor.
  - intros H. remember EmptyString as s eqn:E.
    induction H; simpl; auto; try discriminate.
    + apply append_eq_empty in E as [E1 E2]. rewrite IHlang1, IHlang2; auto.
    + rewrite IHlang; auto.
    + rewrite IHlang; auto using orb_true_r.
Qed.

Lemma deriv_sound (c : ascii) (r : regex) :
  forall s, lang (deriv c r) s -> lang r (String c s).
Proof.
  induction r; simpl; intros s H.
  - inversion H.
  - inversion H.
  - destruct (p c) eqn:E.
    + apply lang_eps_inv in H. subst. constructor; auto.
    + inversion H.
  - apply lang_alt_inv in H as [H | H].
    + apply lang_cat_inv in H as (s1 & s2 & -> & H1 & H2).
      change (String c (s1 ++ s2)) with (String c s1 ++ s2).
      constructor; auto.
    + destruct (nullable r1) eqn:N; [|inversion H].
      change (String c s) with (EmptyString ++ String c s).
      constructor; auto. apply nullable_lang; auto.
  - apply lang_alt_inv in H as [H | H];
      [apply lang_alt_l | apply lang_alt_r]; auto.
  - apply lang_cat_inv in H as (s1 & s2 & -> & H1 & H2).
    change (String c (s1 ++ s2)) with (String c s1 ++ s2).
    constructor; auto.
Qed.

Lemma deriv_complete (r : regex) (t : string) :
  lang r t -> forall c u, t = String c u -> lang (deriv c r) u.
Proof.
  induction 1; intros d u E; simpl.
  - discriminate.
  - injection E as -> <-. rewrite H. constructor.
  - destruct s1 as [|c1 s1]; simpl in E.
    + apply lang_alt_r. apply nullable_lang in H. rewrite H. eauto.
    + injection E as -> <-. apply lang_alt_l. constructor; eauto.
  - apply lang_alt_l. eauto.
  - apply lang_alt_r. eauto.
  - discriminate.
  - destruct s1 as [|c1 s1]; simpl in E.
    + apply (IHlang2 d u E).
    + injection E as -> <-. constructor; eauto.
Qed.

Lemma match_here_spec (s : string) :
  forall r, match_here r s = true <-> exists p q, s = p ++ q /\ lang r p.
Proof.
  induction s as [|c s IH]; intros r; simpl.
  - rewrite orb_false_r, nullable_lang. split.
    + intros H. exists EmptyString, EmptyString. auto.
    + intros (p & q & E & H). symmetry in E.
      apply append_eq_empty in E as [-> _]. auto.
  - rewrite orb_true_iff, nullable_lang, IH. split.
    + intros [H | (p & q & -> & H)].
      * exists EmptyString, (String c s). auto.
      * exists (String c p), q. split; auto. apply deriv_sound; auto.
    + intros ([|d p] & q & E & H); simpl in E.
      * left; auto.
      * injection E as <- ->. right. exists p, q. split; auto.
        eapply deriv_complete; eauto.
Qed.

(** [re_search r s] holds exactly when [s] has a substring in the language
    of [r]. *)
Lemma re_search_spec (r : regex) (s : string) :
  re_search r s = true <-> exists a p q, s = a ++ p ++ q /\ lang r p.
Proof.
  induction s as [|c s IH]; cbn [re_search].
  - rewrite orb_false_r, match_here_spec. split.
    + intros (p & q & E & H). exists EmptyString, p, q. auto.
    + intros ([|d a] & p & q & E & H); simpl in E; [eauto | discriminate].
  - rewrite orb_true_iff, match_here_spec, IH. split.
    + intros [(p & q & E & H) | (a & p & q & -> & H)].
      * exists EmptyString, p, q. auto.
      * exists (String c a), p, q. auto.
    + intros ([|d a] & p & q & E & H); simpl in E.
      * left; eauto.
      * injection E as <- ->. right; eauto.
Qed.

(* ================================================================= *)
(** * The languages of the three patterns *)

Lemma lang_cat_iff r1 r2 s :
  lang (Cat r1 r2) s <->
  exists s1 s2, s = s1 ++ s2 /\ lang r1 s1 /\ lang r2 s2.
Proof.
  split; [apply lang_cat_inv|].
  intros (s1 & s2 & -> & H1 & H2). constructor; auto.
Qed.

Lemma lang_alt_iff r1 r2 s : lang (Alt r1 r2) s <-> lang r1 s \/ lang r2 s.
Proof.
  split; [apply lang_alt_inv|].
  intros [H | H]; [apply lang_alt_l | apply lang_alt_r]; auto.
Qed.

Lemma lang_cls_iff p s :
  lang (Cls p) s <-> exists c, s = String c EmptyString /\ p c = true.
Proof.
  split; [apply lang_cls_inv|]. intros (c & -> & H). constructor; auto.
Qed.

Lemma lower_eq_empty (t : string) : lower t = EmptyString <-> t = EmptyString.
Proof. destruct t; simpl; split; intros H; auto; discriminate. Qed.

Lemma lang_lit (ic : bool) (s : string) :
  forall t, lang (lit ic s) t <-> if ic then lower t = lower s else t = s.
Proof.
  induction s as [|c s IH]; intros t; simpl.
  - split.
    + intros H. apply lang_eps_inv in H. subst. destruct ic; auto.
    + intros H. assert (t = EmptyString) as ->.
      { destruct ic; auto. apply lower_eq_empty; auto. }
      constructor.
  - rewrite lang_cat_iff. split.
    + intros (s1 & s2 & -> & H1 & H2). apply IH in H2.
      destruct ic; simpl in H1; apply lang_cls_inv in H1 as (x & -> & Hx);
        apply Ascii.eqb_eq in Hx; simpl; congruence.
    + intros H. destruct t as [|x t].
      { destruct ic; discriminate. }
      exists (String x EmptyString), t. split; [reflexivity|].
      split.
      * destruct ic; simpl in *; constructor; apply Ascii.eqb_eq; congruence.
      * apply IH. destruct ic; simpl in H; congruence.
Qed.

Lemma lang_star_cls (p : ascii -> bool) (t : string) :
  lang (Star (Cls p)) t <-> all_chars p t = true.
Proof.
  split.
  - intros H. remember (Star (Cls p)) as r eqn:E.
    induction H; try discriminate; auto.
    injection E as ->. rewrite all_chars_append, IHlang2 by auto.
    apply lang_cls_inv in H as (c & -> & Hc). simpl. rewrite Hc. auto.
  - induction t as [|c t IH]; simpl; intros H.
    + constructor.
    + apply andb_true_iff in H as [Hc Ht].
      change (String c t) with (String c EmptyString ++ t).
      constructor; auto. constructor; auto.
Qed.

Lemma lang_at_least_cls (p : ascii -> bool) (n : nat) :
  forall t, lang (at_least n (Cls p)) t <->
            all_chars p t = true /\ n <= String.length t.
Proof.
  induction n as [|n IH]; intros t; simpl.
  - rewrite lang_star_cls. intuition lia.
  - rewrite lang_cat_iff. split.
    + intros (s1 & s2 & -> & H1 & H2).
      apply lang_cls_inv in H1 as (c & -> & Hc). apply IH in H2 as [H2 L].
      simpl. rewrite Hc, H2. split; auto. lia.
    + intros [H L]. destruct t as [|c t]; simpl in *; [lia|].
      apply andb_true_iff in H as [Hc Ht].
      exists (String c EmptyString), t. split; [reflexivity|].
      split; [constructor; auto|]. apply IH. split; auto. lia.
Qed.

Lemma lang_opt_quote (t : string) :
  lang (opt (Cls is_quote)) t <-> is_opt_quote t.
Proof.
  unfold opt, is_opt_quote. rewrite lang_alt_iff, lang_cls_iff. split.
  - intros [H | H]; auto. apply lang_eps_inv in H. auto.
  - intros [-> | H]; auto. left. constructor.
Qed.

(** The three introducers have no letters: matching them ignoring case is
    matching them. *)
Lemma lower_char_uncased (x c : ascii) :
  c = "#"%char \/ c = "/"%char \/ c = "*"%char ->
  lower_char x = c -> x = c.
Proof.
  intros H E. subst c.
  destruct x as [[] [] [] [] [] [] [] []]; vm_compute in H |- *;
    destruct H as [H | [H | H]]; try discriminate H; reflexivity.
Qed.

Lemma lang_comment_token (ic : bool) (t : string) :
  lang (comment_token ic) t <-> is_comment_token t.
Proof.
  unfold comment_token, is_comment_token.
  rewrite !lang_alt_iff, !lang_lit. destruct ic; [|tauto].
  assert (U : forall x c, c = "#"%char \/ c = "/"%char \/ c = "*"%char ->
                          lower_char x = c <-> x = c).
  { intros x c H. split; [apply lower_char_uncased; auto|].
    intros ->. destruct H as [-> | [-> | ->]]; reflexivity. }
  assert (L1 : forall c, c = "#"%char \/ c = "/"%char \/ c = "*"%char ->
     lower t = String c EmptyString <-> t = String c EmptyString).
  { intros c H. destruct t as [|x [|y t]]; simpl; split; intros E;
      try discriminate; injection E as E; f_equal; apply (U x c H); auto. }
  assert (L2 : forall c d, c = "#"%char \/ c = "/"%char \/ c = "*"%char ->
     d = "#"%char \/ d = "/"%char \/ d = "*"%char ->
     lower t = String c (String d EmptyString)
     <-> t = String c (String d EmptyString)).
  { intros c d Hc Hd. destruct t as [|x [|y [|z t]]]; simpl; split; intros E;
      try discriminate; injection E as E1 E2; f_equal;
      [apply (U x c Hc) | f_equal; apply (U y d Hd)
       | apply (U x c Hc) | f_equal; apply (U y d Hd)]; auto. }
  change (lower "#") with "#". change (lower "//") with "//".
  change (lower "/*") with "/*".
  rewrite (L1 "#"%char), (L2 "/"%char "/"%char), (L2 "/"%char "*"%char);
    tauto.
Qed.

Lemma lang_marker_re (p : string) :
  lang marker_re p <->
  exists tok sp word,
    p = tok ++ sp ++ word
    /\ is_comment_token tok /\ all_chars is_space sp = true
    /\ is_marker_word word.
Proof.
  unfold marker_re, spaces, is_marker_word. rewrite lang_cat_iff. split.
  - intros (tok & rest & -> & H1 & H2).
    apply lang_cat_iff in H2 as (sp & word & -> & H2 & H3).
    exists tok, sp, word. rewrite lang_comment_token in H1.
    rewrite lang_star_cls in H2. rewrite !lang_alt_iff, !lang_lit in H3.
    auto.
  - intros (tok & sp & word & -> & H1 & H2 & H3).
    exists tok, (sp ++ word). rewrite lang_comment_token, lang_cat_iff.
    repeat split; auto. exists sp, word.
    rewrite lang_star_cls, !lang_alt_iff, !lang_lit. auto.
Qed.

Lemma lang_stale_re (p : string) :
  lang stale_re p <->
  exists tok sp word,
    p = tok ++ sp ++ word
    /\ is_comment_token tok /\ all_chars is_space sp = true
    /\ is_stale_word word.
Proof.
  unfold stale_re, spaces, is_stale_word. rewrite lang_cat_iff. split.
  - intros (tok & rest & -> & H1 & H2).
    apply lang_cat_iff in H2 as (sp & word & -> & H2 & H3).
    exists tok, sp, word. rewrite lang_comment_token in H1.
    rewrite lang_star_cls in H2. rewrite !lang_alt_iff, !lang_lit in H3.
    auto.
  - intros (tok & sp & word & -> & H1 & H2 & H3).
    exists tok, (sp ++ word). rewrite lang_comment_token, lang_cat_iff.
    repeat split; auto. exists sp, word.
    rewrite lang_star_cls, !lang_alt_iff, !lang_lit. auto.
Qed.

Lemma lang_secret_key (t : string) : lang secret_key t <-> is_secret_key t.
Proof.
  unfold secret_key, is_secret_key. rewrite !lang_alt_iff, !lang_lit.
  reflexivity.
Qed.

(** The pattern of line 44 is found exactly on the lines with a marker
    comment. *)
Lemma marker_search_spec (line : string) :
  re_search marker_re line = true <-> has_marker_comment line.
Proof.
  rewrite re_search_spec. unfold has_marker_comment. split.
  - intros (a & p & q & -> & H).
    apply lang_marker_re in H as (tok & sp & word & -> & H).
    exists a, tok, sp, word, q. rewrite !append_assoc'. auto.
  - intros (a & tok & sp & word & q & -> & H).
    exists a, (tok ++ sp ++ word), q. rewrite !append_assoc'.
    split; auto. apply lang_marker_re. exists tok, sp, word. auto.
Qed.

(** The pattern of line 48 is found exactly on the lines with a staleness
    comment. *)
Lemma stale_search_spec (line : string) :
  re_search stale_re line = true <-> has_stale_comment line.
Proof.
  rewrite re_search_spec. unfold has_stale_comment. split.
  - intros (a & p & q & -> & H).
    apply lang_stale_re in H as (tok & sp & word & -> & H).
    exists a, tok, sp, word, q. rewrite !append_assoc'. auto.
  - intros (a & tok & sp & word & q & -> & H).
    exists a, (tok ++ sp ++ word), q. rewrite !append_assoc'.
    split; auto. apply lang_stale_re. exists tok, sp, word. auto.
Qed.

Lemma lang_secret_re (p : string) :
  lang secret_re p <->
  exists key sp1 sep sp2 q tok q',
    p = key ++ sp1 ++ String sep (sp2 ++ q ++ tok ++ q')
    /\ is_secret_key key /\ all_chars is_space sp1 = true
    /\ is_sep sep = true /\ all_chars is_space sp2 = true
    /\ is_opt_quote q
    /\ (all_chars is_token_char tok = true /\ 20 <= String.length tok)
    /\ is_opt_quote q'.
Proof.
  unfold secret_re, spaces. split.
  - intros H.
    apply lang_cat_iff in H as (key & r1 & -> & Hk & H).
    apply lang_cat_iff in H as (sp1 & r2 & -> & Hs1 & H).
    apply lang_cat_iff in H as (seps & r3 & -> & Hsep & H).
    apply lang_cat_iff in H as (sp2 & r4 & -> & Hs2 & H).
    apply lang_cat_iff in H as (q & r5 & -> & Hq & H).
    apply lang_cat_iff in H as (tok & q' & -> & Ht & Hq').
    apply lang_cls_inv in Hsep as (sep & -> & Hsep).
    exists key, sp1, sep, sp2, q, tok, q'.
    rewrite lang_secret_key in Hk. rewrite lang_star_cls in Hs1, Hs2.
    rewrite lang_opt_quote in Hq, Hq'. rewrite lang_at_least_cls in Ht.
    simpl. auto 10.
  - intros (key & sp1 & sep & sp2 & q & tok & q' & -> & Hk & Hs1 & Hsep
            & Hs2 & Hq & Ht & Hq').
    change (String sep (sp2 ++ q ++ tok ++ q'))
      with (String sep EmptyString ++ sp2 ++ q ++ tok ++ q').
    repeat (apply lang_cat; [|]); try (constructor; assumption).
    + apply lang_secret_key; auto.
    + apply lang_star_cls; auto.
    + apply lang_star_cls; auto.
    + apply lang_opt_quote; auto.
    + apply lang_at_least_cls; auto.
    + apply lang_opt_quote; auto.
Qed.

(** The pattern of line 155 is found exactly on the lines with a secret
    assignment. *)
Lemma secret_search_spec (line : string) :
  re_search secret_re line = true <-> has_secret_assignment line.
Proof.
  rewrite re_search_spec. unfold has_secret_assignment. split.
  - intros (a & p & rest & -> & H).
    apply lang_secret_re in H
      as (key & sp1 & sep & sp2 & q & tok & q' & -> & Hk & Hs1 & Hsep & Hs2
          & Hq & [Ht Hl] & _).
    exists a, key, sp1, sep, sp2, q, tok, (q' ++ rest).
    rewrite !append_assoc'. simpl. rewrite !append_assoc'. auto 10.
  - intros (a & key & sp1 & sep & sp2 & q & tok & post & -> & Hk & Hs1
            & Hsep & Hs2 & Hq & Ht & Hl).
    exists a, (key ++ sp1 ++ String sep (sp2 ++ q ++ tok ++ EmptyString)), post.
    split.
    + rewrite !append_assoc'. simpl. rewrite !append_assoc'. reflexivity.
    + apply lang_secret_re.
      exists key, sp1, sep, sp2, q, tok, EmptyString.
      unfold is_opt_quote at 2. auto 10.
Qed.

(* ================================================================= *)
(** * The per-line scanners *)

Lemma comment_lines_app (pre post : list string) :
  forall i,
    comment_lines i (pre ++ post)%list
    = (comment_lines i pre ++ comment_lines (i + List.length pre) post)%list.
Proof.
  induction pre as [|l pre IH]; intros i; simpl.
  - rewrite Nat.add_0_r. reflexivity.
  - rewrite IH, <- app_assoc, Nat.add_succ_r. reflexivity.
Qed.

Lemma secret_lines_app (pre post : list string) :
  forall i,
    secret_lines i (pre ++ post)%list
    = (secret_lines i pre ++ secret_lines (i + List.length pre) post)%list.
Proof.
  induction pre as [|l pre IH]; intros i; simpl.
  - rewrite Nat.add_0_r. reflexivity.
  - rewrite IH, <- app_assoc, Nat.add_succ_r. reflexivity.
Qed.

Lemma marker_msg_not_stale_msg (n k : nat) (a b : string) :
  marker_msg n a <> stale_msg k b.
Proof. unfold marker_msg, stale_msg. simpl. discriminate. Qed.

Lemma analyze_comments_ok (w : World) (path text : string) :
  read_text w path = Ok text ->
  analyze_comments w path = Ok (comment_lines 0 (split_lines text)).
Proof. intros H. unfold analyze_comments. rewrite H. reflexivity. Qed.

Lemma find_secrets_ok (w : World) (path text : string) :
  read_text w path = Ok text ->
  find_secrets w path = Ok (secret_lines 0 (split_lines text)).
Proof. intros H. unfold find_secrets. rewrite H. reflexivity. Qed.

Lemma comment_line_cases (i : nat) (line : string) :
  comment_line i line
  = ((if re_search marker_re line then [marker_msg (i + 1) line] else [])
     ++ (if re_search stale_re line then [stale_msg (i + 1) line] else []))%list.
Proof. reflexivity. Qed.

(** C2, as the claim states it, at [both_line]: the line has a marker
    comment and the scan returns two comment-scan warnings for it, each with
    the line number and the trimmed text. *)
Lemma C2_counterexample :
  has_marker_comment both_line
  /\ comment_lines 0 [both_line]
     = [ "Warning: Potential TODO/FIXME/XXX found on line 1: port: 80 # TODO // old value";
         "Warning: Potential outdated comment found on line 1: port: 80 # TODO // old value" ]
  /\ List.length (filter is_comment_scan (comment_lines 0 [both_line])) <> 1.
Proof.
  split; [|split].
  - apply marker_search_spec. vm_compute. reflexivity.
  - vm_compute. reflexivity.
  - vm_compute. discriminate.
Qed.

(** C2 (amended): a line on which a comment introducer is followed, after
    optional whitespace only, by TODO, FIXME or XXX gets exactly one
    marker-comment warning from the comment scan, carrying the 1-based
    line number and the trimmed line; the only other warning the scan can
    give for that line is the staleness one, when that pattern matches
    too. *)
Theorem C2_marker_line_one_marker_warning
  (w : World) (path text : string) (pre post : list string) (line : string) :
  read_text w path = Ok text ->
  split_lines text = (pre ++ line :: post)%list ->
  has_marker_comment line ->
  analyze_comments w path
  = Ok (comment_lines 0 pre
        ++ ("Warning: Potential TODO/FIXME/XXX found on line "
              ++ string_of_nat (List.length pre + 1) ++ ": " ++ strip line)%string
           :: (if re_search stale_re line
               then [stale_msg (List.length pre + 1) line] else [])
        ++ comment_lines (S (List.length pre)) post)%list
  /\ count_occ string_dec (comment_line (List.length pre) line)
       (marker_msg (List.length pre + 1) line) = 1.
Proof.
  intros Hr Hs Hm. apply marker_search_spec in Hm. split.
  - rewrite (analyze_comments_ok _ _ _ Hr), Hs, comment_lines_app.
    cbn [comment_lines]. rewrite comment_line_cases, Hm. reflexivity.
  - rewrite comment_line_cases, Hm.
    cbn [app count_occ].
    destruct (string_dec _ _) as [_|N]; [|exfalso; apply N; reflexivity].
    destruct (re_search stale_re line); cbn [count_occ]; [|reflexivity].
    destruct (string_dec _ _) as [E|_]; [|reflexivity].
    symmetry in E. apply marker_msg_not_stale_msg in E. contradiction.
Qed.

Lemma C2_witness :
  analyze_comments c2_world "notes.conf"
  = Ok (comment_lines 0 [c2_first_line]
        ++ ("Warning: Potential TODO/FIXME/XXX found on line "
              ++ string_of_nat (List.length [c2_first_line] + 1)
              ++ ": " ++ strip both_line)%string
           :: (if re_search stale_re both_line
               then [stale_msg (List.length [c2_first_line] + 1)
                       both_line]
               else [])
        ++ comment_lines (S (List.length [c2_first_line])) [])%list
  /\ count_occ string_dec
       (comment_line (List.length [c2_first_line]) both_line)
       (marker_msg (List.length [c2_first_line] + 1) both_line) = 1.
Proof.
  apply (C2_marker_line_one_marker_warning
           c2_world "notes.conf" c2_text [c2_first_line] [] both_line).
  - reflexivity.
  - vm_compute. reflexivity.
  - apply marker_search_spec. vm_compute. reflexivity.
Defined.

Lemma comment_line_facts (i : nat) (line : string) :
  (has_marker_comment line -> has_stale_comment line ->
   comment_line i line = [marker_msg (i + 1) line; stale_msg (i + 1) line])
  /\ (In (marker_msg (i + 1) line) (comment_line i line)
      <-> has_marker_comment line)
  /\ (In (stale_msg (i + 1) line) (comment_line i line)
      <-> has_stale_comment line)
  /\ List.length (comment_line i line) <= 2.
Proof.
  rewrite <- marker_search_spec, <- stale_search_spec, comment_line_cases.
  pose proof (marker_msg_not_stale_msg (i + 1) (i + 1) line line) as N.
  set (m := marker_msg (i + 1) line) in *.
  set (s := stale_msg (i + 1) line) in *.
  clearbody m s.
  destruct (re_search marker_re line), (re_search stale_re line);
    cbn [app In List.length]; repeat split; intros; auto;
    try discriminate; try lia; intuition congruence.
Qed.

(** C6, as the claim states it, at [todo_deprecated_line]: the line has a
    TODO marker and the word deprecated after its comment token, and the
    scan returns one warning for it. *)
Lemma C6_counterexample :
  has_marker_comment todo_deprecated_line
  /\ todo_deprecated_line
     = "#" ++ " TODO: remove " ++ "deprecated" ++ " flag" ++ newline
  /\ comment_lines 0 [todo_deprecated_line]
     = ["Warning: Potential TODO/FIXME/XXX found on line 1: # TODO: remove deprecated flag"]
  /\ List.length (comment_lines 0 [todo_deprecated_line]) <> 2.
Proof.
  split; [|split; [|split]].
  - apply marker_search_spec. vm_compute. reflexivity.
  - reflexivity.
  - vm_compute. reflexivity.
  - vm_compute. discriminate.
Qed.

(** C6 (amended): the two pattern classes are evaluated independently on
    every line, so a line yields zero, one or two warnings; it yields the
    two of them, marker first, when a comment introducer is followed after
    optional whitespace only by TODO, FIXME or XXX and a comment introducer
    is followed after optional whitespace only by deprecated, obsolete or
    old.  A staleness word further on in the comment does not count. *)
Theorem C6_two_classes_independent (i : nat) (line : string) :
  (has_marker_comment line -> has_stale_comment line ->
   comment_line i line = [marker_msg (i + 1) line; stale_msg (i + 1) line])
  /\ (In (marker_msg (i + 1) line) (comment_line i line)
      <-> has_marker_comment line)
  /\ (In (stale_msg (i + 1) line) (comment_line i line)
      <-> has_stale_comment line)
  /\ List.length (comment_line i line) <= 2.
Proof. exact (comment_line_facts i line). Qed.

Lemma C6_witness :
  comment_line 1 both_line
  = [marker_msg (1 + 1) both_line; stale_msg (1 + 1) both_line].
Proof.
  refine (proj1 (C6_two_classes_independent 1 both_line) _ _).
  - apply marker_search_spec. vm_compute. reflexivity.
  - apply stale_search_spec. vm_compute. reflexivity.
Defined.



(** The example of the claim, evaluated. *)
Lemma older_line_warning :
  comment_lines 0 [older_line]
  = ["Warning: Potential outdated comment found on line 1: # older settings"].
Proof. vm_compute. reflexivity. Qed.

(* ================================================================= *)
(** * Telling the messages apart *)

Lemma prefix_head (c : ascii) (p m : string) :
  prefix (String c p) m = true -> head m = Some c.
Proof.
  destruct m as [|d m]; simpl; [discriminate|].
  destruct (ascii_dec c d); [congruence | discriminate].
Qed.

Lemma is_linter_head (m : string) :
  is_linter m = true -> head m = Some "y"%char \/ head m = Some "j"%char.
Proof.
  unfold is_linter. intros H. apply orb_true_iff in H as [H | H];
    apply prefix_head in H; auto.
Qed.

Lemma is_rule_engine_head (m : string) :
  is_rule_engine m = true -> head m = Some "W"%char.
Proof.
  unfold is_rule_engine. intros H.
  apply orb_true_iff in H as [H | H]; apply String.eqb_eq in H; subst;
    reflexivity.
Qed.

Lemma is_error_head (m : string) :
  is_error m = true -> head m = Some "E"%char.
Proof. apply prefix_head. Qed.

Lemma is_comment_scan_head (m : string) :
  is_comment_scan m = true -> head m = Some "W"%char.
Proof. apply prefix_head. Qed.

Lemma is_secret_scan_head (m : string) :
  is_secret_scan m = true -> head m = Some "P"%char.
Proof. apply prefix_head. Qed.

Lemma linter_not_other (m : string) :
  is_linter m = true ->
  is_comment_scan m = false /\ is_secret_scan m = false
  /\ is_rule_engine m = false.
Proof.
  intros H. apply is_linter_head in H.
  destruct (is_comment_scan m) eqn:C; [apply is_comment_scan_head in C|];
  destruct (is_secret_scan m) eqn:S; try apply is_secret_scan_head in S;
  destruct (is_rule_engine m) eqn:R; try apply is_rule_engine_head in R;
    auto; destruct H as [H | H]; congruence.
Qed.

Lemma rule_or_error_not_other (m : string) :
  is_rule_or_error m = true ->
  is_comment_scan m = false /\ is_secret_scan m = false.
Proof.
  unfold is_rule_or_error. intros H. apply orb_true_iff in H as [H | H].
  - apply orb_true_iff in H as [H | H]; apply String.eqb_eq in H; subst;
      split; reflexivity.
  - apply is_error_head in H.
    destruct (is_comment_scan m) eqn:C; [apply is_comment_scan_head in C|];
    destruct (is_secret_scan m) eqn:S; try apply is_secret_scan_head in S;
      auto; congruence.
Qed.

Lemma comment_scan_not_secret (m : string) :
  is_comment_scan m = true -> is_secret_scan m = false.
Proof.
  intros H. apply is_comment_scan_head in H.
  destruct (is_secret_scan m) eqn:S; auto.
  apply is_secret_scan_head in S. congruence.
Qed.

Lemma comment_lines_source (lines : list string) :
  forall i, Forall (fun m => is_comment_scan m = true) (comment_lines i lines).
Proof.
  induction lines as [|l lines IH]; intros i; simpl; [constructor|].
  apply Forall_app. split; [|apply IH].
  unfold comment_line.
  destruct (re_search marker_re l), (re_search stale_re l); simpl;
    repeat constructor.
Qed.

Lemma secret_lines_source (lines : list string) :
  forall i, Forall (fun m => is_secret_scan m = true) (secret_lines i lines).
Proof.
  induction lines as [|l lines IH]; intros i; simpl; [constructor|].
  apply Forall_app. split; [|apply IH].
  unfold secret_line. destruct (re_search secret_re l); simpl;
    repeat constructor.
Qed.

(* ================================================================= *)
(** * The dispatcher *)

Lemma file_handlers_total (m : res (list string)) :
  exists ws, try_except m file_handlers = Ok ws.
Proof. destruct m as [ws | []]; simpl; eauto. Qed.

Lemma file_handlers_error (e : exn) :
  exists m, try_except (Raise e) file_handlers = Ok [m] /\ is_error m = true.
Proof. destruct e; simpl; eauto. Qed.

Lemma analyze_file_content_total (w : World) (p t : string) :
  exists ws, analyze_file_content w p t = Ok ws.
Proof. apply file_handlers_total. Qed.

Lemma find_secrets_total (w : World) (p : string) :
  exists ws, find_secrets w p = Ok ws.
Proof. apply file_handlers_total. Qed.


Lemma yamllint_check_source (w : World) (p : string) (lint : list string) :
  yamllint_check w p = Ok lint -> Forall (fun m => is_linter m = true) lint.
Proof.
  unfold yamllint_check.
  destruct (subprocess_run w ["yamllint"; p]) as [r | e]; simpl.
  - destruct (negb (returncode r =? 0)%Z);
      [|destruct (negb (stdout r =? EmptyString))];
      intros E; injection E as <-; repeat constructor.
  - destruct e; intros E; try discriminate. injection E as <-. constructor.
Qed.

Lemma jsonlint_check_source (w : World) (p : string) (lint : list string) :
  jsonlint_check w p = Ok lint -> Forall (fun m => is_linter m = true) lint.
Proof.
  unfold jsonlint_check.
  destruct (subprocess_run w ["jsonlint"; p]) as [r | e]; simpl.
  - destruct (negb (returncode r =? 0)%Z);
      [|destruct (negb (stdout r =? EmptyString))];
      intros E; injection E as <-; repeat constructor.
  - destruct e; intros E; try discriminate. injection E as <-. constructor.
Qed.

Lemma yaml_rules_cases (data : value) :
  yaml_rules data = [] \/ yaml_rules data = [yaml_rule_msg].
Proof.
  destruct data; simpl; auto.
  destruct (dict_has _ _); auto. destruct (dict_get _ _); auto.
  destruct (eq_str _ _); auto.
Qed.

Lemma json_rules_cases (data : value) :
  json_rules data = [] \/ json_rules data = [json_rule_msg].
Proof.
  destruct data; simpl; auto.
  destruct (dict_has _ _); auto. destruct (dict_get _ _); auto.
  destruct (is_True _); auto.
Qed.

Lemma yaml_rules_source (data : value) :
  Forall (fun m => is_rule_or_error m = true) (yaml_rules data).
Proof.
  destruct (yaml_rules_cases data) as [-> | ->]; repeat constructor.
Qed.

Lemma json_rules_source (data : value) :
  Forall (fun m => is_rule_or_error m = true) (json_rules data).
Proof.
  destruct (json_rules_cases data) as [-> | ->]; repeat constructor.
Qed.

Lemma analyze_yaml_parsed (w : World) (p content : string) (data : value)
  (lint : list string) :
  yaml_safe_load w content = Ok data ->
  yamllint_check w p = Ok lint ->
  analyze_yaml w p content = Ok (lint ++ yaml_rules data)%list.
Proof. intros H1 H2. unfold analyze_yaml. rewrite H1. simpl. rewrite H2. auto. Qed.

Lemma analyze_json_parsed (w : World) (p content : string) (data : value)
  (lint : list string) :
  json_loads w content = Ok data ->
  jsonlint_check w p = Ok lint ->
  analyze_json w p content = Ok (lint ++ json_rules data)%list.
Proof. intros H1 H2. unfold analyze_json. rewrite H1. simpl. rewrite H2. auto. Qed.

(** What the YAML block leaves in [warnings] when it ends without an
    exception: linter findings, then rule findings or one parse error. *)
Lemma analyze_yaml_shape (w : World) (p content : string) (ws : list string) :
  analyze_yaml w p content = Ok ws ->
  exists ls rs,
    ws = (ls ++ rs)%list
    /\ Forall (fun m => is_linter m = true) ls
    /\ Forall (fun m => is_rule_or_error m = true) rs.
Proof.
  unfold analyze_yaml.
  destruct (yaml_safe_load w content) as [data | e]; simpl.
  - destruct (yamllint_check w p) as [lint | e] eqn:L; simpl.
    + intros E. injection E as <-. exists lint, (yaml_rules data).
      split; [reflexivity|]. split.
      * eapply yamllint_check_source; eauto.
      * apply yaml_rules_source.
    + destruct e; try discriminate. intros E. injection E as <-.
      exists [], ["Error parsing YAML: " ++ msg]. repeat constructor.
  - destruct e; try discriminate. intros E. injection E as <-.
    exists [], ["Error parsing YAML: " ++ msg]. repeat constructor.
Qed.

Lemma analyze_json_shape (w : World) (p content : string) (ws : list string) :
  analyze_json w p content = Ok ws ->
  exists ls rs,
    ws = (ls ++ rs)%list
    /\ Forall (fun m => is_linter m = true) ls
    /\ Forall (fun m => is_rule_or_error m = true) rs.
Proof.
  unfold analyze_json.
  destruct (json_loads w content) as [data | e]; simpl.
  - destruct (jsonlint_check w p) as [lint | e] eqn:L; simpl.
    + intros E. injection E as <-. exists lint, (json_rules data).
      split; [reflexivity|]. split.
      * eapply jsonlint_check_source; eauto.
      * apply json_rules_source.
    + destruct e; try discriminate. intros E. injection E as <-.
      exists [], ["Error parsing JSON: " ++ msg]. repeat constructor.
  - destruct e; try discriminate. intros E. injection E as <-.
    exists [], ["Error parsing JSON: " ++ msg]. repeat constructor.
Qed.

Lemma analyze_file_content_resolved (w : World) (p t f content : string) :
  read_text w p = Ok content ->
  resolve_filetype p t = Some f ->
  analyze_file_content w p t
  = try_except
      (if f =? "yaml" then analyze_yaml w p content
       else if f =? "json" then analyze_json w p content
       else Ok [invalid_type_msg])
      file_handlers.
Proof.
  intros H1 H2. unfold analyze_file_content. rewrite H1. simpl. rewrite H2.
  reflexivity.
Qed.

Lemma analyze_file_content_unresolved (w : World) (p t content : string) :
  read_text w p = Ok content ->
  resolve_filetype p t = None ->
  analyze_file_content w p t = Ok (comment_lines 0 (split_lines content)).
Proof.
  intros H1 H2. unfold analyze_file_content. rewrite H1. simpl. rewrite H2.
  rewrite (analyze_comments_ok _ _ _ H1). reflexivity.
Qed.

(** The result for a resolved file type: linter findings, then rule
    findings or an error. *)
Lemma analyze_file_content_shape (w : World) (p t f content : string) :
  read_text w p = Ok content ->
  resolve_filetype p t = Some f ->
  exists ls rs,
    analyze_file_content w p t = Ok (ls ++ rs)%list
    /\ Forall (fun m => is_linter m = true) ls
    /\ Forall (fun m => is_rule_or_error m = true) rs.
Proof.
  intros H1 H2. rewrite (analyze_file_content_resolved _ _ _ _ _ H1 H2).
  assert (S : forall m : res (list string),
    (forall ws, m = Ok ws ->
       exists ls rs, ws = (ls ++ rs)%list
         /\ Forall (fun m => is_linter m = true) ls
         /\ Forall (fun m => is_rule_or_error m = true) rs) ->
    exists ls rs,
      try_except m file_handlers = Ok (ls ++ rs)%list
      /\ Forall (fun m => is_linter m = true) ls
      /\ Forall (fun m => is_rule_or_error m = true) rs).
  { intros [ws | e] H.
    - destruct (H ws eq_refl) as (ls & rs & -> & Hl & Hr). simpl. eauto.
    - destruct (file_handlers_error e) as (m & -> & Hm).
      exists [], [m]. repeat constructor.
      unfold is_rule_or_error. rewrite Hm. apply orb_true_r. }
  apply S. destruct (f =? "yaml"); [|destruct (f =? "json")].
  - apply analyze_yaml_shape.
  - apply analyze_json_shape.
  - intros ws E. injection E as <-. exists [], [invalid_type_msg].
    repeat constructor.
Qed.

(** C1, as the claim states it, at [config.yaml]: the type resolves to
    yaml, the comment scan of the file finds the marker warning of its first
    line, and the analysis result does not hold it. *)
Lemma C1_counterexample :
  resolve_filetype "config.yaml" "auto" = Some "yaml"
  /\ analyze_comments c1_world "config.yaml" = Ok [marker_msg 1 c1_line]
  /\ exists ws,
       analyze_file_content c1_world "config.yaml" "auto" = Ok ws
       /\ ~ In (marker_msg 1 c1_line) ws.
Proof.
  split; [|split].
  - vm_compute. reflexivity.
  - vm_compute. reflexivity.
  - exists []. split; [vm_compute; reflexivity | intros []].
Qed.

(** C1 (amended): the comment scan runs only when the declared type is
    auto and the path suffix resolves no type; the result is then exactly
    the comment-scan warnings of the file.  When the type resolves (to yaml,
    json, or any declared type) the comment scan is not run and the result
    of the analysis holds no comment-scan warning. *)
Theorem C1_comment_scan_only_when_type_unresolved
  (w : World) (p t content : string) :
  read_text w p = Ok content ->
  match resolve_filetype p t with
  | None =>
      analyze_file_content w p t = Ok (comment_lines 0 (split_lines content))
  | Some _ =>
      exists ws,
        analyze_file_content w p t = Ok ws
        /\ Forall (fun m => is_comment_scan m = false) ws
  end.
Proof.
  intros H. destruct (resolve_filetype p t) as [f|] eqn:R.
  - destruct (analyze_file_content_shape _ _ _ _ _ H R)
      as (ls & rs & -> & Hl & Hr).
    eexists. split; [reflexivity|]. apply Forall_app. split.
    + eapply Forall_impl; [|exact Hl]. intros m Hm.
      apply linter_not_other in Hm. tauto.
    + eapply Forall_impl; [|exact Hr]. intros m Hm.
      apply rule_or_error_not_other in Hm. tauto.
  - apply analyze_file_content_unresolved; auto.
Qed.

Lemma C1_witness :
  match resolve_filetype "config.yaml" "auto" with
  | None =>
      analyze_file_content c1_world "config.yaml" "auto"
      = Ok (comment_lines 0 (split_lines c1_text))
  | Some _ =>
      exists ws,
        analyze_file_content c1_world "config.yaml" "auto" = Ok ws
        /\ Forall (fun m => is_comment_scan m = false) ws
  end.
Proof.
  refine (C1_comment_scan_only_when_type_unresolved
            c1_world "config.yaml" "auto" c1_text _).
  reflexivity.
Defined.

(** C4, as the claim states it, at [broken.yaml]: the YAML is malformed,
    the comment scan of the file finds the marker warning of its first line,
    and the analysis result is the parse error alone. *)
Lemma C4_counterexample :
  yaml_safe_load c4_world c4_text
  = Raise (YAMLError "while parsing a flow sequence")
  /\ analyze_comments c4_world "broken.yaml" = Ok [marker_msg 1 c4_line]
  /\ analyze_file_content c4_world "broken.yaml" "yaml"
     = Ok ["Error parsing YAML: while parsing a flow sequence"]
  /\ ~ In (marker_msg 1 c4_line)
          ["Error parsing YAML: while parsing a flow sequence"].
Proof.
  split; [|split; [|split]].
  - reflexivity.
  - vm_compute. reflexivity.
  - vm_compute. reflexivity.
  - vm_compute. intros [H | []]. discriminate H.
Qed.

(** C4 (amended): when parsing the input raises the parse error of the
    parser ([yaml.YAMLError], respectively [json.JSONDecodeError]), the
    analysis yields exactly one parse-error warning and nothing else: no
    rule-engine warning, no linter warning, and no comment-scan warning, the
    comment scan not being run for a resolved type.  When the parser fails
    with any other exception (as [RecursionError] on a document nested too
    deeply), the result is the single read-failure entry instead (the
    file-not-found entry for a [FileNotFoundError]) and holds no parse-error
    warning.  No exception leaves the analysis: every one of them is turned
    into an entry of the returned list. *)
Theorem C4_parse_error_is_the_whole_result (w : World) (p t : string) :
  (exists ws, analyze_file_content w p t = Ok ws)
  /\ (forall content e,
        read_text w p = Ok content ->
        resolve_filetype p t = Some "yaml" ->
        yaml_safe_load w content = Raise e ->
        analyze_file_content w p t
        = Ok [match e with
              | YAMLError msg => "Error parsing YAML: " ++ msg
              | FileNotFoundError => "Error: File not found."
              | _ => "Error: Failed to read file."
              end])
  /\ (forall content e,
        read_text w p = Ok content ->
        resolve_filetype p t = Some "json" ->
        json_loads w content = Raise e ->
        analyze_file_content w p t
        = Ok [match e with
              | JSONDecodeError msg => "Error parsing JSON: " ++ msg
              | FileNotFoundError => "Error: File not found."
              | _ => "Error: Failed to read file."
              end]).
Proof.
  split; [apply analyze_file_content_total|]. split.
  - intros content e H1 H2 H3.
    rewrite (analyze_file_content_resolved _ _ _ _ _ H1 H2).
    change ("yaml" =? "yaml") with true. cbv iota.
    unfold analyze_yaml. rewrite H3. destruct e; reflexivity.
  - intros content e H1 H2 H3.
    rewrite (analyze_file_content_resolved _ _ _ _ _ H1 H2).
    change ("json" =? "yaml") with false. change ("json" =? "json") with true.
    cbv iota. unfold analyze_json. rewrite H3. destruct e; reflexivity.
Qed.

Lemma C4_witness :
  analyze_file_content c4_world "broken.yaml" "yaml"
  = Ok ["Error parsing YAML: " ++ "while parsing a flow sequence"]
  /\ analyze_file_content deep_json_world "deep.json" "auto"
     = Ok ["Error: Failed to read file."].
Proof.
  split.
  - refine (proj1 (proj2 (C4_parse_error_is_the_whole_result
                            c4_world "broken.yaml" "yaml"))
              c4_text (YAMLError "while parsing a flow sequence") _ _ _);
      reflexivity.
  - refine (proj2 (proj2 (C4_parse_error_is_the_whole_result
                            deep_json_world "deep.json" "auto"))
              deep_json_text OtherException _ _ _);
      reflexivity.
Defined.

(** C5, as the claim states it, at [app.yaml]: the result has the linter
    finding first and the rule-engine finding after it. *)
Lemma C5_counterexample :
  analysis_results c5_world c5_args
  = Ok [ "yamllint found issues:" ++ newline
           ++ "app.yaml 1:1 warning missing document start";
         yaml_rule_msg ]
  /\ is_linter ("yamllint found issues:" ++ newline
                  ++ "app.yaml 1:1 warning missing document start") = true
  /\ is_rule_engine yaml_rule_msg = true.
Proof. repeat split; vm_compute; reflexivity. Qed.

(** C5 (amended): the result of a run on a readable file is, in this order:
    comment-scan findings (present only when the type is unresolved, and
    then nothing follows them but secret findings), then external-linter
    findings, then rule-engine findings or the error that stands in their
    place, then secret-scan findings, the last only when requested. *)
Theorem C5_result_order (w : World) (args : Args) (content : string) :
  read_text w (filepath args) = Ok content ->
  exists cs ls rs ss,
    analysis_results w args = Ok (cs ++ ls ++ rs ++ ss)%list
    /\ Forall (fun m => is_comment_scan m = true) cs
    /\ Forall (fun m => is_linter m = true) ls
    /\ Forall (fun m => is_rule_or_error m = true) rs
    /\ Forall (fun m => is_secret_scan m = true) ss
    /\ (find_secrets_flag args = false -> ss = [])
    /\ (cs = [] \/ ls = [] /\ rs = []).
Proof.
  intros H. unfold analysis_results.
  rewrite (find_secrets_ok _ _ _ H).
  set (ss := if find_secrets_flag args
             then secret_lines 0 (split_lines content) else []).
  assert (Hss : Forall (fun m => is_secret_scan m = true) ss).
  { unfold ss. destruct (find_secrets_flag args);
      [apply secret_lines_source | constructor]. }
  assert (Hoff : find_secrets_flag args = false -> ss = []).
  { unfold ss. intros ->. reflexivity. }
  destruct (resolve_filetype (filepath args) (filetype args)) as [f|] eqn:R.
  - destruct (analyze_file_content_shape _ _ _ _ _ H R)
      as (ls & rs & -> & Hl & Hr).
    exists [], ls, rs, ss. simpl.
    repeat split; auto.
    unfold ss. destruct (find_secrets_flag args); simpl.
    + rewrite <- app_assoc. reflexivity.
    + rewrite !app_nil_r. reflexivity.
  - rewrite (analyze_file_content_unresolved _ _ _ _ H R).
    exists (comment_lines 0 (split_lines content)), [], [], ss. simpl.
    repeat split; auto using comment_lines_source.
    unfold ss. destruct (find_secrets_flag args); simpl.
    + reflexivity.
    + rewrite app_nil_r. reflexivity.
Qed.

Lemma C5_witness :
  exists cs ls rs ss,
    analysis_results c5_world c5_args = Ok (cs ++ ls ++ rs ++ ss)%list
    /\ Forall (fun m => is_comment_scan m = true) cs
    /\ Forall (fun m => is_linter m = true) ls
    /\ Forall (fun m => is_rule_or_error m = true) rs
    /\ Forall (fun m => is_secret_scan m = true) ss
    /\ (find_secrets_flag c5_args = false -> ss = [])
    /\ (cs = [] \/ ls = [] /\ rs = []).
Proof.
  refine (C5_result_order c5_world c5_args c5_text _). reflexivity.
Defined.

Lemma filter_rule_engine_linter (lint : list string) :
  Forall (fun m => is_linter m = true) lint ->
  filter is_rule_engine lint = [].
Proof.
  induction 1 as [|m lint Hm _ IH]; simpl; auto.
  apply linter_not_other in Hm as (_ & _ & ->). auto.
Qed.

(** C3: the rule engine.  For a YAML document that is a mapping, the rule
    findings are the one upgrade warning when [api_version] is the string
    [v1], and none when it is [v2] or the key is absent; for a JSON document
    that is a mapping, the one debug warning when [debug] is [true], and
    none when it is [false] or the key is absent, as for the empty object.
    A missing key raises nothing.  In the analysis of a file whose document
    parses and whose lint run returns, the result is the linter findings
    followed by these rule findings, and no linter finding is a rule-engine
    warning. *)
Theorem C3_rule_engine (items : list (value * value)) :
  (dict_get "api_version" items = Some (VStr "v1") ->
   yaml_rules (VDict items) = [yaml_rule_msg])
  /\ (dict_get "api_version" items = Some (VStr "v2") ->
      yaml_rules (VDict items) = [])
  /\ (dict_get "api_version" items = None -> yaml_rules (VDict items) = [])
  /\ (dict_get "debug" items = Some (VBool true) ->
      json_rules (VDict items) = [json_rule_msg])
  /\ (dict_get "debug" items = Some (VBool false) ->
      json_rules (VDict items) = [])
  /\ (dict_get "debug" items = None -> json_rules (VDict items) = [])
  /\ json_rules (VDict [(VStr "debug", VBool true)]) = [json_rule_msg]
  /\ json_rules (VDict [(VStr "debug", VBool false)]) = []
  /\ json_rules (VDict []) = []
  /\ (forall (w : World) (p t content : string) (lint : list string),
        read_text w p = Ok content ->
        resolve_filetype p t = Some "yaml" ->
        yaml_safe_load w content = Ok (VDict items) ->
        yamllint_check w p = Ok lint ->
        analyze_file_content w p t
        = Ok (lint ++ yaml_rules (VDict items))%list
        /\ filter is_rule_engine (lint ++ yaml_rules (VDict items))%list
           = yaml_rules (VDict items))
  /\ (forall (w : World) (p t content : string) (lint : list string),
        read_text w p = Ok content ->
        resolve_filetype p t = Some "json" ->
        json_loads w content = Ok (VDict items) ->
        jsonlint_check w p = Ok lint ->
        analyze_file_content w p t
        = Ok (lint ++ json_rules (VDict items))%list
        /\ filter is_rule_engine (lint ++ json_rules (VDict items))%list
           = json_rules (VDict items)).
Proof.
  repeat match goal with |- _ /\ _ => split end;
    try (unfold yaml_rules, json_rules, dict_has; intros ->; reflexivity);
    try reflexivity.
  - intros w p t content lint H R P L. split.
    + rewrite (analyze_file_content_resolved _ _ _ _ _ H R).
      change ("yaml" =? "yaml") with true. cbv iota.
      rewrite (analyze_yaml_parsed _ _ _ _ _ P L). reflexivity.
    + rewrite filter_app, filter_rule_engine_linter
        by (eapply yamllint_check_source; eauto).
      destruct (yaml_rules_cases (VDict items)) as [-> | ->]; reflexivity.
  - intros w p t content lint H R P L. split.
    + rewrite (analyze_file_content_resolved _ _ _ _ _ H R).
      change ("json" =? "yaml") with false.
      change ("json" =? "json") with true. cbv iota.
      rewrite (analyze_json_parsed _ _ _ _ _ P L). reflexivity.
    + rewrite filter_app, filter_rule_engine_linter
        by (eapply jsonlint_check_source; eauto).
      destruct (json_rules_cases (VDict items)) as [-> | ->]; reflexivity.
Qed.

Lemma C3_witness :
  json_rules (VDict [(VStr "debug", VBool true)]) = [json_rule_msg]
  /\ analyze_file_content c3_world "app.json" "auto"
     = Ok ([] ++ json_rules (VDict [(VStr "debug", VBool true)]))%list
  /\ filter is_rule_engine
       ([] ++ json_rules (VDict [(VStr "debug", VBool true)]))%list
     = json_rules (VDict [(VStr "debug", VBool true)]).
Proof.
  destruct (C3_rule_engine [(VStr "debug", VBool true)])
    as (_ & _ & _ & A & _ & _ & _ & _ & _ & _ & B).
  split; [exact (A eq_refl)|].
  exact (B c3_world "app.json" "auto" c3_text [] eq_refl eq_refl eq_refl
           eq_refl).
Defined.

(** The analysis of a readable file returns no secret-scan warning. *)
Lemma analyze_file_content_no_secret (w : World) (p t content : string)
  (ws : list string) :
  read_text w p = Ok content ->
  analyze_file_content w p t = Ok ws ->
  Forall (fun m => is_secret_scan m = false) ws.
Proof.
  intros H E. destruct (resolve_filetype p t) as [f|] eqn:R.
  - destruct (analyze_file_content_shape _ _ _ _ _ H R)
      as (ls & rs & E' & Hl & Hr).
    rewrite E' in E. injection E as <-. apply Forall_app. split.
    + eapply Forall_impl; [|exact Hl]. intros m Hm.
      apply linter_not_other in Hm. tauto.
    + eapply Forall_impl; [|exact Hr]. intros m Hm.
      apply rule_or_error_not_other in Hm. tauto.
  - rewrite (analyze_file_content_unresolved _ _ _ _ H R) in E.
    injection E as <-.
    eapply Forall_impl; [|apply comment_lines_source].
    intros m Hm. apply comment_scan_not_secret; auto.
Qed.

(** C7, as the claim states it, at [no_separator_line]: the line holds the
    key fragment [password] followed by a token of 26 letters, the optional
    separator and quoting left out, and the secret scan returns nothing. *)
Lemma C7_counterexample :
  re_search secret_re_as_specified no_separator_line = true
  /\ secret_lines 0 [no_separator_line] = []
  /\ analysis_results c7_world_no_separator (c7_args true) = Ok [].
Proof. repeat split; vm_compute; reflexivity. Qed.

(** C7 (amended): a line holding one of the key fragments api_key, apikey,
    password or secret in any letter case, followed by optional whitespace,
    one separator [:] or [=] (which is required), optional whitespace, an
    optional quote and a token of at least twenty letters, digits,
    underscores or hyphens yields exactly one secret-scan warning, with its
    1-based line number and trimmed text, appended after the findings of the
    analysis when the secret scan is requested; the password line of the
    specification is such a line; when the scan is not requested the result
    holds no secret-scan warning. *)
Theorem C7_secret_scan (w : World) (args : Args) (content : string)
  (ws : list string) :
  read_text w (filepath args) = Ok content ->
  analyze_file_content w (filepath args) (filetype args) = Ok ws ->
  (find_secrets_flag args = true ->
   analysis_results w args
   = Ok (ws ++ secret_lines 0 (split_lines content))%list
   /\ forall pre line post,
        split_lines content = (pre ++ line :: post)%list ->
        has_secret_assignment line ->
        secret_lines 0 (split_lines content)
        = (secret_lines 0 pre
           ++ ("Potential secret found on line "
                 ++ string_of_nat (List.length pre + 1) ++ ": "
                 ++ strip line)%string
              :: secret_lines (S (List.length pre)) post)%list)
  /\ (find_secrets_flag args = false ->
      analysis_results w args = Ok ws
      /\ Forall (fun m => is_secret_scan m = false) ws)
  /\ has_secret_assignment password_line.
Proof.
  intros H E. split; [|split].
  - intros F. split.
    + unfold analysis_results. rewrite E, F, (find_secrets_ok _ _ _ H).
      reflexivity.
    + intros pre line post S L. apply secret_search_spec in L.
      rewrite S, secret_lines_app. cbn [secret_lines].
      unfold secret_line at 1. rewrite L. reflexivity.
  - intros F. split.
    + unfold analysis_results. rewrite E, F. reflexivity.
    + eapply analyze_file_content_no_secret; eauto.
  - apply secret_search_spec. vm_compute. reflexivity.
Qed.

Lemma C7_witness :
  analysis_results c7_world (c7_args true)
  = Ok ([] ++ secret_lines 0 (split_lines password_line))%list
  /\ secret_lines 0 (split_lines password_line)
     = (secret_lines 0 []
        ++ ("Potential secret found on line "
              ++ string_of_nat (List.length (@nil string) + 1) ++ ": "
              ++ strip password_line)%string
           :: secret_lines (S (List.length (@nil string))) [])%list.
Proof.
  destruct (proj1 (C7_secret_scan c7_world (c7_args true) password_line []
                     eq_refl eq_refl) eq_refl) as [A B].
  split; [exact A|].
  refine (B [] password_line [] _ _).
  - vm_compute. reflexivity.
  - apply secret_search_spec. vm_compute. reflexivity.
Defined.

(** What the witness amounts to: one warning for the password line. *)
Lemma password_line_warning :
  analysis_results c7_world (c7_args true)
  = Ok [ "Potential secret found on line 1: password = " ++ dquote
           ++ "abcdefghijklmnopqrstuvwxyz" ++ dquote ]
  /\ analysis_results c7_world (c7_args false) = Ok [].
Proof. split; vm_compute; reflexivity. Qed.

(* ================================================================= *)
(** * The driver and the file type *)






Lemma append_last_inj (a b : string) (c d : ascii) :
  a ++ String c EmptyString = b ++ String d EmptyString -> a = b /\ c = d.
Proof.
  revert b. induction a as [|x a IH]; intros [|y b] E; simpl in E.
  - injection E as ->. auto.
  - injection E as -> E. destruct b; discriminate.
  - injection E as -> E. destruct a; discriminate.
  - injection E as -> E. apply IH in E as [-> ->]. auto.
Qed.

Lemma endswith_append (s suffix : string) : endswith (s ++ suffix) suffix = true.
Proof. apply endswith_spec. eauto. Qed.

Lemma endswith_other_last (s a b : string) (c d : ascii) :
  c <> d ->
  endswith (s ++ a ++ String c EmptyString) (b ++ String d EmptyString)
  = false.
Proof.
  intros N. destruct (endswith _ _) eqn:E; auto.
  apply endswith_spec in E as [q E].
  rewrite <- !append_assoc' in E. apply append_last_inj in E as [_ E].
  contradiction.
Qed.

(** C9: with the declared type auto the whole path is put in lower case
    before the suffix test, so a path that ends in .yaml or .yml in any
    letter case resolves to yaml and one that ends in .json in any letter
    case resolves to json; the analysis then runs as if that type had been
    declared. *)
Theorem C9_suffix_in_any_case (w : World) (base ext : string) :
  resolve_filetype (base ++ ext) "auto"
  = resolve_filetype (lower (base ++ ext)) "auto"
  /\ (lower ext = ".yaml" \/ lower ext = ".yml" ->
      resolve_filetype (base ++ ext) "auto" = Some "yaml"
      /\ analyze_file_content w (base ++ ext) "auto"
         = analyze_file_content w (base ++ ext) "yaml")
  /\ (lower ext = ".json" ->
      resolve_filetype (base ++ ext) "auto" = Some "json"
      /\ analyze_file_content w (base ++ ext) "auto"
         = analyze_file_content w (base ++ ext) "json").
Proof.
  split; [|split].
  - unfold resolve_filetype. cbn [String.eqb Ascii.eqb Bool.eqb andb].
    rewrite lower_idem. reflexivity.
  - intros H.
    assert (R : resolve_filetype (base ++ ext) "auto" = Some "yaml").
    { unfold resolve_filetype. cbn [String.eqb Ascii.eqb Bool.eqb andb].
      rewrite lower_append.
      destruct H as [-> | ->]; rewrite endswith_append;
        rewrite ?orb_true_r; reflexivity. }
    split; [exact R|]. unfold analyze_file_content. rewrite R. reflexivity.
  - intros H.
    assert (R : resolve_filetype (base ++ ext) "auto" = Some "json").
    { unfold resolve_filetype. cbn [String.eqb Ascii.eqb Bool.eqb andb].
      assert (E1 : endswith (lower base ++ ".json") ".yaml" = false)
        by (apply (endswith_other_last (lower base) ".jso" ".yam" "n" "l");
            discriminate).
      assert (E2 : endswith (lower base ++ ".json") ".yml" = false)
        by (apply (endswith_other_last (lower base) ".jso" ".ym" "n" "l");
            discriminate).
      rewrite lower_append, H, endswith_append, E1, E2. reflexivity. }
    split; [exact R|]. unfold analyze_file_content. rewrite R. reflexivity.
Qed.

Lemma C9_witness :
  resolve_filetype ("CONFIG" ++ ".YAML") "auto" = Some "yaml"
  /\ resolve_filetype ("data" ++ ".Json") "auto" = Some "json".
Proof.
  split.
  - refine (proj1 (proj1 (proj2 (C9_suffix_in_any_case c1_world
                                   "CONFIG" ".YAML")) _)).
    left. reflexivity.
  - refine (proj1 (proj2 (proj2 (C9_suffix_in_any_case c1_world
                                   "data" ".Json")) _)).
    reflexivity.
Defined.

(* ================================================================= *)
(** * Further properties of the scanners *)

Lemma has_char_append (c : ascii) (a b : string) :
  has_char c (a ++ b) = has_char c a || has_char c b.
Proof. induction a; simpl; [|rewrite IHa, orb_assoc]; reflexivity. Qed.

Lemma has_char_split_lines (c : ascii) (s : string) :
  has_char c s = false ->
  Forall (fun l => has_char c l = false) (split_lines s).
Proof.
  induction s as [|d s IH]; simpl; intros H; [constructor|].
  apply orb_false_iff in H as [Hd Hs]. specialize (IH Hs).
  destruct (Ascii.eqb d "010").
  - constructor; auto. simpl. rewrite Hd. reflexivity.
  - destruct (split_lines s) as [|l ls].
    + repeat constructor. simpl. rewrite Hd. reflexivity.
    + inversion IH; subst. constructor; auto. simpl. rewrite Hd. auto.
Qed.

Lemma comment_token_has_char (tok : string) :
  is_comment_token tok ->
  has_char "#" tok || has_char "/" tok = true.
Proof. intros [-> | [-> | ->]]; reflexivity. Qed.

Lemma no_introducer_no_match (line : string) :
  has_char "#" line = false -> has_char "/" line = false ->
  re_search marker_re line = false /\ re_search stale_re line = false.
Proof.
  intros H1 H2.
  assert (N : forall pre tok rest, is_comment_token tok ->
                line = pre ++ tok ++ rest -> False).
  { intros pre tok rest Ht ->. apply comment_token_has_char in Ht.
    rewrite !has_char_append in H1, H2.
    apply orb_false_iff in H1 as [_ H1]. apply orb_false_iff in H1 as [H1 _].
    apply orb_false_iff in H2 as [_ H2]. apply orb_false_iff in H2 as [H2 _].
    rewrite H1, H2 in Ht. discriminate. }
  split.
  - destruct (re_search marker_re line) eqn:E; auto.
    apply marker_search_spec in E as (pre & tok & sp & word & post & E & Ht & _).
    destruct (N pre tok (sp ++ word ++ post) Ht E).
  - destruct (re_search stale_re line) eqn:E; auto.
    apply stale_search_spec in E as (pre & tok & sp & word & post & E & Ht & _).
    destruct (N pre tok (sp ++ word ++ post) Ht E).
Qed.

Lemma comment_lines_silent (lines : list string) :
  Forall (fun l => has_char "#" l = false) lines ->
  Forall (fun l => has_char "/" l = false) lines ->
  forall i, comment_lines i lines = [].
Proof.
  induction lines as [|l lines IH]; intros H1 H2 i; simpl; auto.
  inversion H1; subst. inversion H2; subst.
  rewrite IH by auto. unfold comment_line.
  destruct (no_introducer_no_match l) as [-> ->]; auto.
Qed.

(** X1: a file in which neither [#] nor [/] occurs gets no warning from the
    comment scan: both patterns start with a comment introducer. *)
Theorem X1_no_introducer_no_comment_warning (w : World) (path text : string) :
  read_text w path = Ok text ->
  has_char "#" text = false ->
  has_char "/" text = false ->
  analyze_comments w path = Ok [].
Proof.
  intros H H1 H2. rewrite (analyze_comments_ok _ _ _ H).
  rewrite comment_lines_silent; auto using has_char_split_lines.
Qed.

Lemma X1_witness : analyze_comments c3_world "app.json" = Ok [].
Proof.
  refine (X1_no_introducer_no_comment_warning c3_world "app.json" c3_text
            _ _ _); reflexivity.
Defined.

Lemma comment_line_in (i : nat) (line m : string) :
  In m (comment_line i line) <->
  (m = marker_msg (i + 1) line /\ has_marker_comment line)
  \/ (m = stale_msg (i + 1) line /\ has_stale_comment line).
Proof.
  rewrite <- marker_search_spec, <- stale_search_spec, comment_line_cases.
  destruct (re_search marker_re line), (re_search stale_re line);
    cbn [app In]; intuition (try discriminate; auto).
Qed.

Lemma comment_lines_in (lines : list string) (m : string) :
  forall k,
    In m (comment_lines k lines) <->
    exists i line,
      nth_error lines i = Some line
      /\ ((m = marker_msg (k + i + 1) line /\ has_marker_comment line)
          \/ (m = stale_msg (k + i + 1) line /\ has_stale_comment line)).
Proof.
  induction lines as [|l lines IH]; intros k; cbn [comment_lines].
  - split; [intros [] | intros ([|i] & line & E & _); discriminate].
  - rewrite in_app_iff, comment_line_in, IH. split.
    + intros [H | (i & line & E & H)].
      * exists 0, l. rewrite Nat.add_0_r. split; [reflexivity | exact H].
      * exists (S i), line.
        replace (k + S i + 1) with (S k + i + 1) by lia.
        split; [exact E | exact H].
    + intros ([|i] & line & E & H); simpl in E.
      * injection E as ->. rewrite Nat.add_0_r in H. left. exact H.
      * right. exists i, line.
        replace (k + S i + 1) with (S k + i + 1) in H by lia.
        split; [exact E | exact H].
Qed.

(** X2: the comment scan reports the matching lines and nothing else.  A
    message is in its result exactly when it is the marker warning of a
    line with a marker comment or the staleness warning of a line with a
    staleness comment, numbered by the position of the line, from 1. *)
Theorem X2_comment_warnings_are_the_matching_lines
  (w : World) (path text m : string) :
  read_text w path = Ok text ->
  exists ws,
    analyze_comments w path = Ok ws
    /\ (In m ws <->
        exists i line,
          nth_error (split_lines text) i = Some line
          /\ ((m = marker_msg (i + 1) line /\ has_marker_comment line)
              \/ (m = stale_msg (i + 1) line /\ has_stale_comment line))).
Proof.
  intros H. eexists. split; [apply analyze_comments_ok; eauto|].
  apply (comment_lines_in (split_lines text) m 0).
Qed.

Lemma X2_witness :
  exists ws,
    analyze_comments c2_world "notes.conf" = Ok ws
    /\ (In (marker_msg 2 both_line) ws <->
        exists i line,
          nth_error (split_lines c2_text) i = Some line
          /\ ((marker_msg 2 both_line = marker_msg (i + 1) line
               /\ has_marker_comment line)
              \/ (marker_msg 2 both_line = stale_msg (i + 1) line
                  /\ has_stale_comment line))).
Proof.
  refine (X2_comment_warnings_are_the_matching_lines
            c2_world "notes.conf" c2_text (marker_msg 2 both_line) _).
  reflexivity.
Defined.

Lemma secret_line_in (i : nat) (line m : string) :
  In m (secret_line i line) <->
  m = secret_msg (i + 1) line /\ has_secret_assignment line.
Proof.
  rewrite <- secret_search_spec. unfold secret_line.
  destruct (re_search secret_re line); cbn [In];
    intuition (try discriminate; auto).
Qed.

Lemma secret_lines_in (lines : list string) (m : string) :
  forall k,
    In m (secret_lines k lines) <->
    exists i line,
      nth_error lines i = Some line
      /\ m = secret_msg (k + i + 1) line /\ has_secret_assignment line.
Proof.
  induction lines as [|l lines IH]; intros k; cbn [secret_lines].
  - split; [intros [] | intros ([|i] & line & E & _); discriminate].
  - rewrite in_app_iff, secret_line_in, IH. split.
    + intros [H | (i & line & E & H)].
      * exists 0, l. rewrite Nat.add_0_r. split; [reflexivity | exact H].
      * exists (S i), line.
        replace (k + S i + 1) with (S k + i + 1) by lia.
        split; [exact E | exact H].
    + intros ([|i] & line & E & H); simpl in E.
      * injection E as ->. rewrite Nat.add_0_r in H. left. exact H.
      * right. exists i, line.
        replace (k + S i + 1) with (S k + i + 1) in H by lia.
        split; [exact E | exact H].
Qed.

(** X3: on a file whose text lies in the code points U+0000..U+00FF, the
    secret scan reports the matching lines and nothing else.  A message is
    in its result exactly when it is the secret warning of a line with a
    secret assignment, numbered by the position of the line, from 1.
    (Beyond that range [re.IGNORECASE] lets a few more characters stand for
    i, k and s; they are outside this statement.) *)
Theorem X3_secret_warnings_are_the_matching_lines
  (w : World) (path text m : string) :
  read_text w path = Ok text ->
  exists ws,
    find_secrets w path = Ok ws
    /\ (In m ws <->
        exists i line,
          nth_error (split_lines text) i = Some line
          /\ m = secret_msg (i + 1) line /\ has_secret_assignment line).
Proof.
  intros H. eexists. split; [apply find_secrets_ok; eauto|].
  apply (secret_lines_in (split_lines text) m 0).
Qed.

Lemma X3_witness :
  exists ws,
    find_secrets c7_world "settings.conf" = Ok ws
    /\ (In (secret_msg 1 password_line) ws <->
        exists i line,
          nth_error (split_lines password_line) i = Some line
          /\ secret_msg 1 password_line = secret_msg (i + 1) line
          /\ has_secret_assignment line).
Proof.
  refine (X3_secret_warnings_are_the_matching_lines
            c7_world "settings.conf" password_line
            (secret_msg 1 password_line) _).
  reflexivity.
Defined.

Lemma comment_lines_length (lines : list string) :
  forall i, List.length (comment_lines i lines) <= 2 * List.length lines.
Proof.
  induction lines as [|l lines IH]; intros i; simpl; [lia|].
  rewrite length_app. specialize (IH (S i)).
  pose proof (proj2 (proj2 (proj2 (comment_line_facts i l)))). lia.
Qed.

Lemma secret_lines_length (lines : list string) :
  forall i, List.length (secret_lines i lines) <= List.length lines.
Proof.
  induction lines as [|l lines IH]; intros i; simpl; [lia|].
  rewrite length_app. specialize (IH (S i)).
  unfold secret_line. destruct (re_search secret_re l); simpl; lia.
Qed.

(** X4: the comment scan returns at most two warnings for each line of the
    file and the secret scan at most one. *)
Theorem X4_scan_sizes (w : World) (path text : string) :
  read_text w path = Ok text ->
  exists ws ss,
    analyze_comments w path = Ok ws
    /\ find_secrets w path = Ok ss
    /\ List.length ws <= 2 * List.length (split_lines text)
    /\ List.length ss <= List.length (split_lines text).
Proof.
  intros H. exists (comment_lines 0 (split_lines text)),
                   (secret_lines 0 (split_lines text)).
  split; [apply analyze_comments_ok; auto|].
  split; [apply find_secrets_ok; auto|].
  split; [apply comment_lines_length | apply secret_lines_length].
Qed.

Lemma X4_witness :
  exists ws ss,
    analyze_comments c2_world "notes.conf" = Ok ws
    /\ find_secrets c2_world "notes.conf" = Ok ss
    /\ List.length ws <= 2 * List.length (split_lines c2_text)
    /\ List.length ss <= List.length (split_lines c2_text).
Proof.
  refine (X4_scan_sizes c2_world "notes.conf" c2_text _). reflexivity.
Defined.

Lemma lower_fixed_append (a b : string) :
  lower (a ++ b) = a ++ b -> lower a = a /\ lower b = b.
Proof.
  induction a as [|c a IH]; simpl; intros E; [auto|].
  injection E as E1 E2. apply IH in E2 as [-> ->]. rewrite E1. auto.
Qed.

Lemma lower_fixed_split_lines (s : string) :
  lower s = s -> Forall (fun l => lower l = l) (split_lines s).
Proof.
  induction s as [|d s IH]; simpl; intros H; [constructor|].
  injection H as Hd Hs. specialize (IH Hs).
  destruct (Ascii.eqb d "010").
  - constructor; auto. simpl. rewrite Hd. reflexivity.
  - destruct (split_lines s) as [|l ls].
    + repeat constructor. simpl. rewrite Hd. reflexivity.
    + inversion IH; subst. constructor; auto. simpl. congruence.
Qed.

Lemma lower_fixed_no_marker (line : string) :
  lower line = line -> re_search marker_re line = false.
Proof.
  intros H. destruct (re_search marker_re line) eqn:E; auto.
  apply marker_search_spec in E
    as (pre & tok & sp & word & post & -> & _ & _ & Hw).
  apply lower_fixed_append in H as [_ H].
  apply lower_fixed_append in H as [_ H].
  apply lower_fixed_append in H as [_ H].
  apply lower_fixed_append in H as [H _].
  destruct Hw as [-> | [-> | ->]]; discriminate H.
Qed.

Lemma comment_lines_no_marker (lines : list string) :
  Forall (fun l => lower l = l) lines ->
  forall i,
    Forall (fun m => is_marker_warning m = false) (comment_lines i lines).
Proof.
  induction 1 as [|l lines Hl _ IH]; intros i; simpl; [constructor|].
  apply Forall_app. split; [|apply IH].
  unfold comment_line. rewrite (lower_fixed_no_marker l Hl).
  destruct (re_search stale_re l); simpl; repeat constructor.
Qed.

(** X5: the marker words are matched in upper case only.  A file with no
    upper-case letter gets no marker warning, whatever it holds; the
    staleness warnings are not affected. *)
Theorem X5_marker_words_need_upper_case (w : World) (path text : string) :
  read_text w path = Ok text ->
  lower text = text ->
  exists ws,
    analyze_comments w path = Ok ws
    /\ Forall (fun m => is_marker_warning m = false) ws.
Proof.
  intros H L. eexists. split; [apply analyze_comments_ok; eauto|].
  apply comment_lines_no_marker, lower_fixed_split_lines, L.
Qed.

Lemma X5_witness :
  exists ws,
    analyze_comments
      (one_file_world "notes.conf" lower_todo_line
         (Raise OtherException) (Raise OtherException)
         (Raise FileNotFoundError))
      "notes.conf" = Ok ws
    /\ Forall (fun m => is_marker_warning m = false) ws.
Proof.
  refine (X5_marker_words_need_upper_case _ "notes.conf" lower_todo_line _ _);
    reflexivity.
Defined.

(* ================================================================= *)
(** * Patterns compiled with [re.IGNORECASE] *)

Lemma lower_eq_append (a b : string) :
  forall s, lower s = a ++ b ->
            exists a' b', s = a' ++ b' /\ lower a' = a /\ lower b' = b.
Proof.
  induction a as [|c a IH]; intros s E.
  - exists EmptyString, s. auto.
  - destruct s as [|x s]; [discriminate|]. simpl in E. injection E as E1 E2.
    destruct (IH s E2) as (a' & b' & -> & Ha & Hb).
    exists (String x a'), b'. simpl. rewrite E1, Ha. auto.
Qed.

Lemma lang_lower (r : regex) (s : string) :
  lang r s -> case_blind r -> lang r (lower s).
Proof.
  induction 1; simpl; intros CB.
  - constructor.
  - constructor. rewrite CB. auto.
  - rewrite lower_append. constructor; tauto.
  - apply lang_alt_l. tauto.
  - apply lang_alt_r. tauto.
  - constructor.
  - rewrite lower_append. constructor; auto.
Qed.

Lemma lang_lower_inv (r : regex) (t : string) :
  lang r t -> case_blind r -> forall s, t = lower s -> lang r s.
Proof.
  induction 1; simpl; intros CB u E.
  - symmetry in E. apply (proj1 (lower_eq_empty _)) in E. subst. constructor.
  - destruct u as [|x [|y u]]; try discriminate. simpl in E.
    injection E as ->. constructor. rewrite <- CB. auto.
  - symmetry in E. apply lower_eq_append in E as (a & b & -> & Ha & Hb).
    constructor; [apply IHlang1 | apply IHlang2]; auto; tauto.
  - apply lang_alt_l. apply IHlang; tauto.
  - apply lang_alt_r. apply IHlang; tauto.
  - symmetry in E. apply (proj1 (lower_eq_empty _)) in E. subst. constructor.
  - symmetry in E. apply lower_eq_append in E as (a & b & -> & Ha & Hb).
    constructor; [apply IHlang1 | apply IHlang2]; auto.
Qed.

(** A pattern whose classes do not tell a letter from its lower case is
    found on a line exactly when it is found on the line in lower case. *)
Lemma re_search_lower (r : regex) (s : string) :
  case_blind r -> re_search r (lower s) = re_search r s.
Proof.
  intros CB. apply eq_true_iff_eq. rewrite !re_search_spec. split.
  - intros (a & p & q & E & H).
    apply lower_eq_append in E as (a' & pq & -> & Ha & E).
    apply lower_eq_append in E as (p' & q' & -> & Hp & Hq).
    exists a', p', q'. split; auto.
    apply (lang_lower_inv r p H CB). auto.
  - intros (a & p & q & -> & H).
    exists (lower a), (lower p), (lower q).
    rewrite !lower_append. split; auto. apply lang_lower; auto.
Qed.

Ltac case_blind_classes :=
  simpl; repeat split; intros c;
  try (rewrite lower_char_idem; reflexivity);
  destruct c as [[] [] [] [] [] [] [] []]; reflexivity.

Lemma stale_re_case_blind : case_blind stale_re.
Proof. case_blind_classes. Qed.

Lemma secret_re_case_blind : case_blind secret_re.
Proof. case_blind_classes. Qed.

(** X6: the staleness test ignores letter case altogether: a line gets a
    staleness warning exactly when the same line in lower case gets one. *)
Theorem X6_staleness_ignores_case (i : nat) (line : string) :
  re_search stale_re (lower line) = re_search stale_re line
  /\ (In (stale_msg (i + 1) line) (comment_line i line)
      <-> In (stale_msg (i + 1) (lower line)) (comment_line i (lower line))).
Proof.
  pose proof (re_search_lower stale_re line stale_re_case_blind) as E.
  split; [exact E|].
  rewrite (proj1 (proj2 (proj2 (comment_line_facts i line)))).
  rewrite (proj1 (proj2 (proj2 (comment_line_facts i (lower line))))).
  rewrite <- !stale_search_spec, E. reflexivity.
Qed.

(** X7: on a line whose characters lie in the code points U+0000..U+00FF,
    the secret test does not depend on letter case: the line gets a secret
    warning exactly when the same line in lower case gets one.  (A
    character beyond that range whose lower case is more than one
    character is outside this statement.) *)
Theorem X7_secret_scan_ignores_case (i : nat) (line : string) :
  re_search secret_re (lower line) = re_search secret_re line
  /\ (secret_line i line = [secret_msg (i + 1) line]
      <-> secret_line i (lower line) = [secret_msg (i + 1) (lower line)]).
Proof.
  pose proof (re_search_lower secret_re line secret_re_case_blind) as E.
  split; [exact E|]. unfold secret_line. rewrite E.
  destruct (re_search secret_re line); split; intros H;
    try reflexivity; discriminate H.
Qed.

Lemma length_lower (s : string) : String.length (lower s) = String.length s.
Proof. induction s; simpl; auto. Qed.

Lemma secret_key_length (key : string) :
  is_secret_key key -> 6 <= String.length key.
Proof.
  intros H. rewrite <- length_lower.
  destruct H as [-> | [-> | [-> | ->]]]; simpl; lia.
Qed.

Lemma secret_assignment_needs (line : string) :
  has_secret_assignment line ->
  has_char ":" line || has_char "=" line = true
  /\ 27 <= String.length line.
Proof.
  intros (pre & key & sp1 & sep & sp2 & q & tok & post & -> & Hk & _ & Hs
          & _ & _ & _ & Ht).
  apply secret_key_length in Hk. split.
  - rewrite !has_char_append. cbn [has_char].
    unfold is_sep in Hs. apply orb_true_iff in Hs as [Hs | Hs];
      apply Ascii.eqb_eq in Hs; subst sep; cbn [Ascii.eqb Bool.eqb andb];
      rewrite ?orb_true_r; reflexivity.
  - rewrite !length_append. cbn [String.length]. rewrite !length_append. lia.
Qed.

Lemma secret_lines_silent (lines : list string) :
  Forall (fun l => re_search secret_re l = false) lines ->
  forall i, secret_lines i lines = [].
Proof.
  induction 1 as [|l lines Hl _ IH]; intros i; simpl; auto.
  unfold secret_line. rewrite Hl, IH. reflexivity.
Qed.

(** X8: what the secret scan never flags.  A file in which neither [:] nor
    [=] occurs gets no secret warning, and neither does a file all of whose
    lines are shorter than 27 characters (the shortest key fragment, the
    separator and twenty token characters). *)
Theorem X8_secret_scan_needs_separator_and_length
  (w : World) (path text : string) :
  read_text w path = Ok text ->
  (has_char ":" text = false /\ has_char "=" text = false)
  \/ Forall (fun l => String.length l < 27) (split_lines text) ->
  find_secrets w path = Ok [].
Proof.
  intros H C. rewrite (find_secrets_ok _ _ _ H).
  rewrite secret_lines_silent; auto.
  assert (N : forall l, re_search secret_re l = true ->
                        has_char ":" l || has_char "=" l = true
                        /\ 27 <= String.length l).
  { intros l E. apply secret_assignment_needs, secret_search_spec, E. }
  destruct C as [[C1 C2] | C].
  - apply has_char_split_lines in C1, C2.
    rewrite Forall_forall in *. intros l Hl.
    destruct (re_search secret_re l) eqn:E; auto.
    apply N in E as [E _]. rewrite (C1 l Hl), (C2 l Hl) in E. discriminate.
  - eapply Forall_impl; [|exact C]. intros l Hl.
    destruct (re_search secret_re l) eqn:E; auto.
    apply N in E as [_ E]. cbv beta in Hl. lia.
Qed.

Lemma X8_witness : find_secrets lower_todo_world "notes.conf" = Ok [].
Proof.
  refine (X8_secret_scan_needs_separator_and_length
            lower_todo_world "notes.conf" lower_todo_line _ _).
  - reflexivity.
  - left. split; reflexivity.
Defined.

Lemma X6_witness :
  In (stale_msg (0 + 1) (lower "# OLD key"))
     (comment_line 0 (lower "# OLD key")).
Proof.
  refine (proj1 (proj2 (X6_staleness_ignores_case 0 "# OLD key")) _).
  vm_compute. left. reflexivity.
Defined.

Lemma X7_witness :
  secret_line 0 (lower "API_KEY=ABCDEFGHIJKLMNOPQRSTUVWXYZ")
  = [secret_msg (0 + 1) (lower "API_KEY=ABCDEFGHIJKLMNOPQRSTUVWXYZ")].
Proof.
  refine (proj1 (proj2 (X7_secret_scan_ignores_case
                          0 "API_KEY=ABCDEFGHIJKLMNOPQRSTUVWXYZ")) _).
  vm_compute. reflexivity.
Defined.

(* ================================================================= *)
(** * Further properties of the dispatcher and of the driver *)

Lemma not_choice (t : string) :
  ~ In t filetype_choices ->
  (t =? "auto") = false /\ (t =? "yaml") = false /\ (t =? "json") = false.
Proof.
  unfold filetype_choices. cbn [In]. intros N.
  repeat split; apply String.eqb_neq; intros ->; apply N; auto.
Qed.

Lemma analyze_file_content_unreadable (w : World) (p t : string) (e : exn) :
  read_text w p = Raise e ->
  analyze_file_content w p t = Ok [read_error_msg e].
Proof.
  intros H. unfold analyze_file_content. rewrite H. destruct e; reflexivity.
Qed.

Lemma find_secrets_unreadable (w : World) (p : string) (e : exn) :
  read_text w p = Raise e -> find_secrets w p = Ok [read_error_msg e].
Proof. intros H. unfold find_secrets. rewrite H. destruct e; reflexivity. Qed.

(** X9: a declared type outside yaml, json and auto.  On a readable file
    the result is the invalid-type error alone, and neither a parser nor a
    lint tool is consulted; on a file that cannot be read the read error
    comes first and is the result. *)
Theorem X9_undeclared_type (w : World) (p t : string) :
  ~ In t filetype_choices ->
  (forall content,
      read_text w p = Ok content ->
      analyze_file_content w p t = Ok ["Error: Invalid filetype specified."])
  /\ (forall e,
        read_text w p = Raise e ->
        analyze_file_content w p t = Ok [read_error_msg e]).
Proof.
  intros N. apply not_choice in N as (N1 & N2 & N3). split.
  - intros content H.
    assert (R : resolve_filetype p t = Some t)
      by (unfold resolve_filetype; rewrite N1; reflexivity).
    rewrite (analyze_file_content_resolved _ _ _ _ _ H R), N2, N3.
    reflexivity.
  - intros e H. apply analyze_file_content_unreadable, H.
Qed.

Lemma X9_witness :
  analyze_file_content c1_world "config.yaml" "toml"
  = Ok ["Error: Invalid filetype specified."].
Proof.
  refine (proj1 (X9_undeclared_type c1_world "config.yaml" "toml" _)
            c1_text _).
  - unfold filetype_choices. cbn [In].
    intros [H | [H | [H | []]]]; discriminate H.
  - reflexivity.
Defined.

Lemma lint_entries (tool out_fail : string) (r : CompletedProcess) :
  let ws :=
    if negb (returncode r =? 0)%Z
    then [tool ++ " found issues:" ++ newline ++ out_fail]
    else if negb (stdout r =? EmptyString)
         then [tool ++ " reported:" ++ newline ++ stdout r]
         else [] in
  List.length ws <= 1
  /\ (ws = [] <-> returncode r = 0%Z /\ stdout r = EmptyString).
Proof.
  cbv zeta. destruct (Z.eqb_spec (returncode r) 0) as [E | E]; simpl.
  - destruct (String.eqb_spec (stdout r) EmptyString) as [S | S]; simpl.
    + split; [lia|]. tauto.
    + split; [lia|]. split; [discriminate | tauto].
  - split; [lia|]. split; [discriminate | tauto].
Qed.

(** X10: a lint run adds at most one entry, and it adds none exactly when
    the tool is absent or it returned status 0 with nothing on its standard
    output; this holds for [yamllint] and for [jsonlint] alike. *)
Theorem X10_lint_adds_at_most_one_entry (w : World) (p : string)
  (ws : list string) :
  (yamllint_check w p = Ok ws ->
   List.length ws <= 1
   /\ (ws = [] <->
       subprocess_run w ["yamllint"; p] = Raise FileNotFoundError
       \/ exists r, subprocess_run w ["yamllint"; p] = Ok r
                    /\ returncode r = 0%Z /\ stdout r = EmptyString))
  /\ (jsonlint_check w p = Ok ws ->
      List.length ws <= 1
      /\ (ws = [] <->
          subprocess_run w ["jsonlint"; p] = Raise FileNotFoundError
          \/ exists r, subprocess_run w ["jsonlint"; p] = Ok r
                       /\ returncode r = 0%Z /\ stdout r = EmptyString)).
Proof.
  split.
  - unfold yamllint_check.
    destruct (subprocess_run w ["yamllint"; p]) as [r | e]; simpl.
    + intros E. injection E as <-.
      destruct (lint_entries "yamllint" (stdout r) r) as [L C].
      split; [exact L|]. rewrite C. split.
      * intros H. right. exists r. auto.
      * intros [H | (r' & E & H)]; [discriminate|]. injection E as <-. auto.
    + destruct e; try discriminate. intros E. injection E as <-.
      split; [simpl; lia|]. split; auto.
  - unfold jsonlint_check.
    destruct (subprocess_run w ["jsonlint"; p]) as [r | e]; simpl.
    + intros E. injection E as <-.
      destruct (lint_entries "jsonlint" (stderr r) r) as [L C].
      split; [exact L|]. rewrite C. split.
      * intros H. right. exists r. auto.
      * intros [H | (r' & E & H)]; [discriminate|]. injection E as <-. auto.
    + destruct e; try discriminate. intros E. injection E as <-.
      split; [simpl; lia|]. split; auto.
Qed.

Lemma X10_witness :
  List.length (@nil string) <= 1
  /\ (@nil string = [] <->
      subprocess_run c1_world ["yamllint"; "config.yaml"]
      = Raise FileNotFoundError
      \/ exists r, subprocess_run c1_world ["yamllint"; "config.yaml"] = Ok r
                   /\ returncode r = 0%Z /\ stdout r = EmptyString).
Proof.
  refine (proj1 (X10_lint_adds_at_most_one_entry c1_world "config.yaml" [])
            _).
  reflexivity.
Defined.

(** X11: an absent lint tool and a failing one are told apart.  With the
    document parsed, a tool that is not installed leaves the rule findings
    as the result; a tool whose launch raises anything else makes the whole
    result the read-failure error, the rule findings being dropped.  The
    same holds in the JSON branch. *)
Theorem X11_absent_tool_versus_failing_tool
  (w : World) (p t content : string) (data : value) :
  read_text w p = Ok content ->
  (resolve_filetype p t = Some "yaml" ->
   yaml_safe_load w content = Ok data ->
   (subprocess_run w ["yamllint"; p] = Raise FileNotFoundError ->
    analyze_file_content w p t = Ok (yaml_rules data))
   /\ (subprocess_run w ["yamllint"; p] = Raise OtherException ->
       analyze_file_content w p t = Ok ["Error: Failed to read file."]))
  /\ (resolve_filetype p t = Some "json" ->
      json_loads w content = Ok data ->
      (subprocess_run w ["jsonlint"; p] = Raise FileNotFoundError ->
       analyze_file_content w p t = Ok (json_rules data))
      /\ (subprocess_run w ["jsonlint"; p] = Raise OtherException ->
          analyze_file_content w p t = Ok ["Error: Failed to read file."])).
Proof.
  intros H. split; intros R P; rewrite (analyze_file_content_resolved _ _ _ _ _ H R).
  - change ("yaml" =? "yaml") with true. cbv iota.
    unfold analyze_yaml, yamllint_check. rewrite P.
    split; intros ->; reflexivity.
  - change ("json" =? "yaml") with false. change ("json" =? "json") with true.
    cbv iota. unfold analyze_json, jsonlint_check. rewrite P.
    split; intros ->; reflexivity.
Qed.

Lemma X11_witness :
  analyze_file_content tool_crash_world "app.yaml" "auto"
  = Ok ["Error: Failed to read file."]
  /\ analyze_file_content no_tool_world "app.yaml" "auto"
     = Ok (yaml_rules (VDict [(VStr "api_version", VStr "v1")])).
Proof.
  split.
  - refine (proj2 (proj1 (X11_absent_tool_versus_failing_tool
                            tool_crash_world "app.yaml" "auto" c5_text
                            (VDict [(VStr "api_version", VStr "v1")]) _)
                     _ _) _); reflexivity.
  - refine (proj1 (proj1 (X11_absent_tool_versus_failing_tool
                            no_tool_world "app.yaml" "auto" c5_text
                            (VDict [(VStr "api_version", VStr "v1")]) _)
                     _ _) _); reflexivity.
Defined.

Lemma eq_str_iff (v : value) (s : string) : eq_str v s = true <-> v = VStr s.
Proof.
  destruct v; simpl; try (split; [discriminate | intros H; discriminate H]).
  rewrite String.eqb_eq. split; [intros ->; reflexivity | intros H].
  injection H as ->. reflexivity.
Qed.

Lemma is_True_iff (v : value) : is_True v = true <-> v = VBool true.
Proof.
  destruct v as [| [] | | | | |]; simpl;
    split; intros H; try reflexivity; discriminate H.
Qed.

(** X12: when the rules fire.  The YAML rule gives its warning exactly when
    the document is a mapping whose [api_version] is the string [v1], and
    the JSON rule exactly when the document is a mapping whose [debug] is
    the boolean [true]; a sequence, a scalar, an empty document, or a value
    of another type under the key (the number 1, the string [true]) gives
    nothing, and nothing is raised. *)
Theorem X12_rules_fire_exactly (data : value) :
  (yaml_rules data = [yaml_rule_msg] \/ yaml_rules data = [])
  /\ (yaml_rules data = [yaml_rule_msg] <->
      exists items, data = VDict items
                    /\ dict_get "api_version" items = Some (VStr "v1"))
  /\ (json_rules data = [json_rule_msg] \/ json_rules data = [])
  /\ (json_rules data = [json_rule_msg] <->
      exists items, data = VDict items
                    /\ dict_get "debug" items = Some (VBool true)).
Proof.
  split; [destruct (yaml_rules_cases data); auto|].
  split; [|split; [destruct (json_rules_cases data); auto|]].
  - split.
    + destruct data; simpl; try discriminate. unfold dict_has.
      destruct (dict_get "api_version" items) as [v|] eqn:G;
        try discriminate.
      destruct (eq_str v "v1") eqn:E; try discriminate.
      apply eq_str_iff in E. subst. intros _. exists items. auto.
    + intros (items & -> & H). simpl. unfold dict_has. rewrite H. reflexivity.
  - split.
    + destruct data; simpl; try discriminate. unfold dict_has.
      destruct (dict_get "debug" items) as [v|] eqn:G; try discriminate.
      destruct (is_True v) eqn:E; try discriminate.
      apply is_True_iff in E. subst. intros _. exists items. auto.
    + intros (items & -> & H). simpl. unfold dict_has. rewrite H. reflexivity.
Qed.

Lemma X12_witness :
  yaml_rules (VDict [(VStr "name", VStr "demo"); (VStr "api_version", VStr "v1")])
  = [yaml_rule_msg].
Proof.
  refine (proj2 (proj1 (proj2 (X12_rules_fire_exactly _))) _).
  eexists. split; reflexivity.
Defined.

Lemma lint_not_invalid (ws : list string) :
  Forall (fun m => is_linter m = true) ws -> ~ In invalid_type_msg ws.
Proof.
  intros F H. rewrite Forall_forall in F. apply F in H. discriminate H.
Qed.

Lemma analyze_yaml_not_invalid (w : World) (p content : string)
  (ws : list string) :
  analyze_yaml w p content = Ok ws -> ~ In invalid_type_msg ws.
Proof.
  unfold analyze_yaml.
  destruct (yaml_safe_load w content) as [data | e]; simpl.
  - destruct (yamllint_check w p) as [lint | e] eqn:L; simpl.
    + intros E. injection E as <-. rewrite in_app_iff. intros [H | H].
      * apply (lint_not_invalid lint);
          [eapply yamllint_check_source; eauto | exact H].
      * destruct (yaml_rules_cases data) as [R | R]; rewrite R in H;
          [destruct H | destruct H as [H | []]; discriminate H].
    + destruct e; try discriminate. intros E. injection E as <-.
      intros [H | []]. discriminate H.
  - destruct e; try discriminate. intros E. injection E as <-.
    intros [H | []]. discriminate H.
Qed.

Lemma analyze_json_not_invalid (w : World) (p content : string)
  (ws : list string) :
  analyze_json w p content = Ok ws -> ~ In invalid_type_msg ws.
Proof.
  unfold analyze_json.
  destruct (json_loads w content) as [data | e]; simpl.
  - destruct (jsonlint_check w p) as [lint | e] eqn:L; simpl.
    + intros E. injection E as <-. rewrite in_app_iff. intros [H | H].
      * apply (lint_not_invalid lint);
          [eapply jsonlint_check_source; eauto | exact H].
      * destruct (json_rules_cases data) as [R | R]; rewrite R in H;
          [destruct H | destruct H as [H | []]; discriminate H].
    + destruct e; try discriminate. intros E. injection E as <-.
      intros [H | []]. discriminate H.
  - destruct e; try discriminate. intros E. injection E as <-.
    intros [H | []]. discriminate H.
Qed.

Lemma handlers_not_invalid (m : res (list string)) (ws : list string) :
  (forall ws', m = Ok ws' -> ~ In invalid_type_msg ws') ->
  try_except m file_handlers = Ok ws -> ~ In invalid_type_msg ws.
Proof.
  destruct m as [ws' | e]; simpl.
  - intros H E. injection E as <-. auto.
  - intros _. destruct e; intros E; injection E as <-;
      intros [H | []]; discriminate H.
Qed.

Lemma source_not_invalid (P : string -> bool) (ws : list string) :
  P invalid_type_msg = false ->
  Forall (fun m => P m = true) ws -> ~ In invalid_type_msg ws.
Proof.
  intros N F H. rewrite Forall_forall in F. apply F in H. congruence.
Qed.

(** X13: with a file type that [argparse] lets through (yaml, json or
    auto), the invalid-type error is never part of what [main] prints as
    results. *)
Theorem X13_choices_never_give_invalid_type (w : World) (args : Args) :
  In (filetype args) filetype_choices ->
  exists ws,
    analysis_results w args = Ok ws
    /\ ~ In "Error: Invalid filetype specified." ws.
Proof.
  intros C.
  assert (A : forall ws, analyze_file_content w (filepath args) (filetype args)
                         = Ok ws -> ~ In invalid_type_msg ws).
  { intros ws. unfold analyze_file_content.
    apply handlers_not_invalid. intros ws'.
    destruct (read_text w (filepath args)) as [content | e]; simpl;
      [|discriminate].
    assert (R : resolve_filetype (filepath args) (filetype args) = None
                \/ resolve_filetype (filepath args) (filetype args)
                   = Some "yaml"
                \/ resolve_filetype (filepath args) (filetype args)
                   = Some "json").
    { unfold resolve_filetype, filetype_choices in *. cbn [In] in C.
      destruct C as [<- | [<- | [<- | []]]];
        cbn [String.eqb Ascii.eqb Bool.eqb andb]; auto.
      destruct (_ || _); auto. destruct (endswith _ _); auto. }
    destruct R as [-> | [-> | ->]].
    - unfold analyze_comments.
      destruct (read_text w (filepath args)) as [text | e]; simpl.
      + intros E. injection E as <-.
        apply (source_not_invalid is_comment_scan); [reflexivity|].
        apply comment_lines_source.
      + destruct e; intros E; injection E as <-;
          intros [H | []]; discriminate H.
    - change ("yaml" =? "yaml") with true. cbv iota.
      apply analyze_yaml_not_invalid.
    - change ("json" =? "yaml") with false.
      change ("json" =? "json") with true. cbv iota.
      apply analyze_json_not_invalid. }
  assert (S : forall ss, find_secrets w (filepath args) = Ok ss ->
                         ~ In invalid_type_msg ss).
  { intros ss. unfold find_secrets. apply handlers_not_invalid. intros ss'.
    destruct (read_text w (filepath args)) as [text | e]; simpl;
      [|discriminate].
    intros E. injection E as <-.
    apply (source_not_invalid is_secret_scan); [reflexivity|].
    apply secret_lines_source. }
  unfold analysis_results.
  destruct (analyze_file_content_total w (filepath args) (filetype args))
    as [ws Ew].
  destruct (find_secrets_total w (filepath args)) as [ss Es].
  rewrite Ew, Es. simpl. destruct (find_secrets_flag args).
  - exists (ws ++ ss)%list. split; [reflexivity|].
    rewrite in_app_iff. intros [H | H]; [eapply A | eapply S]; eauto.
  - exists ws. split; [reflexivity|]. eapply A; eauto.
Qed.

Lemma X13_witness :
  exists ws,
    analysis_results c5_world c5_args = Ok ws
    /\ ~ In "Error: Invalid filetype specified." ws.
Proof.
  refine (X13_choices_never_give_invalid_type c5_world c5_args _).
  right. right. left. reflexivity.
Defined.

Lemma endswith_lower_spec (p suffix : string) :
  endswith (lower p) suffix = true <->
  exists base ext, p = base ++ ext /\ lower ext = suffix.
Proof.
  rewrite endswith_spec. split.
  - intros (q & E). apply lower_eq_append in E as (base & ext & -> & _ & H).
    eauto.
  - intros (base & ext & -> & <-). exists (lower base). apply lower_append.
Qed.

Lemma endswith_json_not_yaml (s : string) :
  endswith s ".json" = true ->
  endswith s ".yaml" = false /\ endswith s ".yml" = false.
Proof.
  intros H. apply endswith_spec in H as [q ->]. split.
  - apply (endswith_other_last q ".jso" ".yam" "n" "l"). discriminate.
  - apply (endswith_other_last q ".jso" ".ym" "n" "l"). discriminate.
Qed.

(** X14: what the automatic detection resolves.  With the declared type
    auto, a path resolves to yaml exactly when it ends in .yaml or .yml in
    some letter case, to json exactly when it ends in .json in some letter
    case, and to no type (the comment scan) in every other case; a suffix
    elsewhere in the name does not count. *)
Theorem X14_auto_detection_exactly (p : string) :
  (resolve_filetype p "auto" = Some "yaml" <->
   exists base ext,
     p = base ++ ext /\ (lower ext = ".yaml" \/ lower ext = ".yml"))
  /\ (resolve_filetype p "auto" = Some "json" <->
      exists base ext, p = base ++ ext /\ lower ext = ".json")
  /\ (resolve_filetype p "auto" = None <->
      forall base ext,
        p = base ++ ext ->
        lower ext <> ".yaml" /\ lower ext <> ".yml" /\ lower ext <> ".json").
Proof.
  pose proof (endswith_lower_spec p ".yaml") as Y.
  pose proof (endswith_lower_spec p ".yml") as M.
  pose proof (endswith_lower_spec p ".json") as J.
  pose proof (endswith_json_not_yaml (lower p)) as X.
  assert (B1 : resolve_filetype p "auto" = Some "yaml" <->
               endswith (lower p) ".yaml" = true
               \/ endswith (lower p) ".yml" = true).
  { unfold resolve_filetype. cbn [String.eqb Ascii.eqb Bool.eqb andb].
    destruct (endswith (lower p) ".yaml"), (endswith (lower p) ".yml"),
      (endswith (lower p) ".json"); cbn [orb];
      intuition discriminate. }
  assert (B2 : resolve_filetype p "auto" = Some "json" <->
               endswith (lower p) ".json" = true).
  { unfold resolve_filetype. cbn [String.eqb Ascii.eqb Bool.eqb andb].
    destruct (endswith (lower p) ".yaml"), (endswith (lower p) ".yml"),
      (endswith (lower p) ".json"); cbn [orb];
      try (destruct (X eq_refl); discriminate);
      intuition discriminate. }
  assert (B3 : resolve_filetype p "auto" = None <->
               endswith (lower p) ".yaml" = false
               /\ endswith (lower p) ".yml" = false
               /\ endswith (lower p) ".json" = false).
  { unfold resolve_filetype. cbn [String.eqb Ascii.eqb Bool.eqb andb].
    destruct (endswith (lower p) ".yaml"), (endswith (lower p) ".yml"),
      (endswith (lower p) ".json"); cbn [orb];
      intuition discriminate. }
  rewrite B1, B2, B3, <- !not_true_iff_false, Y, M, J.
  split; [|split].
  - split.
    + intros [(b & e & E & H) | (b & e & E & H)]; exists b, e; auto.
    + intros (b & e & E & [H | H]); [left | right]; exists b, e; auto.
  - reflexivity.
  - split.
    + intros (N1 & N2 & N3) b e E.
      repeat split; intros H; [apply N1 | apply N2 | apply N3];
        exists b, e; auto.
    + intros H.
      repeat split; intros (b & e & E & N);
        destruct (H b e E) as (N1 & N2 & N3); contradiction.
Qed.

Lemma X14_witness : resolve_filetype ("Deploy" ++ ".YML") "auto" = Some "yaml".
Proof.
  refine (proj2 (proj1 (X14_auto_detection_exactly ("Deploy" ++ ".YML"))) _).
  exists "Deploy", ".YML". split; [reflexivity | right; reflexivity].
Defined.

(** A name that holds a known suffix elsewhere than at its end. *)
Lemma backup_name_unresolved :
  resolve_filetype "settings.yaml.bak" "auto" = None.
Proof. reflexivity. Qed.

(** X15: a file that exists and cannot be read.  Each function that opens
    it returns its read error alone, so with the secret scan requested the
    results hold the same error twice; [main] prints them as results and
    the exit status is 0. *)
Theorem X15_unreadable_file (w : World) (args : Args) (e : exn) :
  read_text w (filepath args) = Raise e ->
  analysis_results w args
  = Ok (if find_secrets_flag args
        then [read_error_msg e; read_error_msg e]
        else [read_error_msg e])
  /\ (path_exists w (filepath args) = true ->
      main w args
      = {| printed := "Analysis Results:"
                        :: (if find_secrets_flag args
                            then [read_error_msg e; read_error_msg e]
                            else [read_error_msg e]);
           exit_status := 0 |}).
Proof.
  intros H.
  assert (A : analysis_results w args
              = Ok (if find_secrets_flag args
                    then [read_error_msg e; read_error_msg e]
                    else [read_error_msg e])).
  { unfold analysis_results.
    rewrite (analyze_file_content_unreadable _ _ _ _ H),
      (find_secrets_unreadable _ _ _ H).
    simpl. destruct (find_secrets_flag args); reflexivity. }
  split; [exact A|]. intros P. unfold main. rewrite P, A. simpl.
  destruct (find_secrets_flag args); reflexivity.
Qed.

Lemma X15_witness :
  analysis_results unreadable_world unreadable_args
  = Ok (if find_secrets_flag unreadable_args
        then [read_error_msg OtherException; read_error_msg OtherException]
        else [read_error_msg OtherException]).
Proof.
  refine (proj1 (X15_unreadable_file unreadable_world unreadable_args
                   OtherException _)).
  reflexivity.
Defined.

Lemma analyze_yaml_length (w : World) (p content : string)
  (ws : list string) :
  analyze_yaml w p content = Ok ws -> List.length ws <= 2.
Proof.
  unfold analyze_yaml.
  destruct (yaml_safe_load w content) as [data | e]; simpl.
  - destruct (yamllint_check w p) as [lint | e] eqn:L; simpl.
    + intros E. injection E as <-. rewrite length_app.
      assert (List.length lint <= 1).
      { revert L. unfold yamllint_check.
        destruct (subprocess_run w ["yamllint"; p]) as [r | e]; simpl.
        - intros E. injection E as <-.
          apply (lint_entries "yamllint" (stdout r) r).
        - destruct e; try discriminate. intros E. injection E as <-.
          simpl. lia. }
      destruct (yaml_rules_cases data) as [-> | ->]; simpl; lia.
    + destruct e; try discriminate. intros E. injection E as <-. simpl. lia.
  - destruct e; try discriminate. intros E. injection E as <-. simpl. lia.
Qed.

Lemma analyze_json_length (w : World) (p content : string)
  (ws : list string) :
  analyze_json w p content = Ok ws -> List.length ws <= 2.
Proof.
  unfold analyze_json.
  destruct (json_loads w content) as [data | e]; simpl.
  - destruct (jsonlint_check w p) as [lint | e] eqn:L; simpl.
    + intros E. injection E as <-. rewrite length_app.
      assert (List.length lint <= 1).
      { revert L. unfold jsonlint_check.
        destruct (subprocess_run w ["jsonlint"; p]) as [r | e]; simpl.
        - intros E. injection E as <-.
          apply (lint_entries "jsonlint" (stderr r) r).
        - destruct e; try discriminate. intros E. injection E as <-.
          simpl. lia. }
      destruct (json_rules_cases data) as [-> | ->]; simpl; lia.
    + destruct e; try discriminate. intros E. injection E as <-. simpl. lia.
  - destruct e; try discriminate. intros E. injection E as <-. simpl. lia.
Qed.

(** X16: with a resolved file type the analysis returns at most two
    entries: at most one from the lint run and at most one from the rule,
    or a single error in their place.  The number of lines of the file does
    not matter. *)
Theorem X16_resolved_type_at_most_two_entries
  (w : World) (p t f : string) :
  resolve_filetype p t = Some f ->
  exists ws,
    analyze_file_content w p t = Ok ws /\ List.length ws <= 2.
Proof.
  intros R. destruct (read_text w p) as [content | e] eqn:H.
  - rewrite (analyze_file_content_resolved _ _ _ _ _ H R).
    assert (S : forall m : res (list string),
              (forall ws, m = Ok ws -> List.length ws <= 2) ->
              exists ws, try_except m file_handlers = Ok ws
                         /\ List.length ws <= 2).
    { intros [ws | []] L; simpl; eauto. }
    apply S. destruct (f =? "yaml"); [|destruct (f =? "json")].
    + apply analyze_yaml_length.
    + apply analyze_json_length.
    + intros ws E. injection E as <-. simpl. lia.
  - rewrite (analyze_file_content_unreadable _ _ _ _ H). eexists.
    split; [reflexivity | simpl; lia].
Qed.

Lemma X16_witness :
  exists ws,
    analyze_file_content c5_world "app.yaml" "auto" = Ok ws
    /\ List.length ws <= 2.
Proof.
  refine (X16_resolved_type_at_most_two_entries
            c5_world "app.yaml" "auto" "yaml" _).
  reflexivity.
Defined.
